(** * aws-cost-analyzer: period resolution, cost reconciliation and comparison

    A shallow embedding of
      - src/mastra/utils/cost-calculations.ts
      - src/mastra/utils/error-handlers.ts
      - src/mastra/utils/date-helpers.ts
      - src/mastra/tools/aws-cost-fetcher.ts
    together with the properties stated about them.

    Conventions of the embedding:
      - a JavaScript [number] holding an amount or a percentage is an exact
        rational ([Q]); [Math.round x] is [floor (x + 1/2)]; NaN and the
        infinities are not represented;
      - a JavaScript [Date] is its time value, an integer number of
        milliseconds since the epoch ([Z]); the calendar follows the
        definitions of ECMA-262 (Day, DayFromYear, YearFromTime,
        MonthFromTime, DateFromTime, MakeDay); the host's time zone is a
        fixed offset [tza] (milliseconds east of UTC);
      - a "YYYY-MM-DD" string is the record of its three numeric fields
        ([IsoDate]); [isoString] renders it;
      - chrono-node, [Intl.NumberFormat] and the conversion of a number to
        a string are parameters of the functions that call them;
      - logging calls have no effect on results and are left out;
      - an array that the code sorts in place is threaded through the
        functions that receive it: they return the array as the caller sees
        it afterwards next to their result. *)

From Stdlib Require Import ZArith QArith Qround Qabs Lia Lqa Bool List Ascii String.
From Stdlib Require Import Permutation Sorted DecimalString.
Import ListNotations.

Local Open Scope Z_scope.

(* ================================================================== *)
(** * Numbers *)

Module Num.

Local Open Scope Q_scope.

Definition ltb (x y : Q) : bool := negb (Qle_bool y x).
Definition gtb (x y : Q) : bool := ltb y x.
Definition eqb (x y : Q) : bool := Qeq_bool x y.

(** [Math.round]: the nearest integer, ties towards +infinity. *)
Definition Math_round (x : Q) : Q := inject_Z (Qfloor (x + (1 # 2))).

(** [Math.abs] *)
Definition Math_abs (x : Q) : Q := Qabs x.

(** [Math.ceil] on a quotient of integers. *)
Definition ceil_div (a b : Z) : Z := (- ((- a) / b))%Z.

(** Optional argument with a default value. *)
Definition dflt {A : Type} (d : A) (o : option A) : A :=
  match o with Some v => v | None => d end.

(** [String(z)] for an integer [z]: its decimal numeral. *)
Definition Z_toString (z : Z) : string :=
  NilZero.string_of_int (Z.to_int z).

(** [s.padStart(2, '0')] *)
Definition padStart2 (s : string) : string :=
  match s with
  | String _ EmptyString => String "0"%char s
  | EmptyString => "00"%string
  | _ => s
  end.

End Num.

(* ================================================================== *)
(** * cost-calculations.ts: the pure part *)

Module CostCalc.

Import Num.
Local Open Scope Q_scope.

(** [calculatePercentageChange(current, previous)] *)
Definition calculatePercentageChange (current previous : Q) : Q :=
  if eqb previous 0 then (if gtb current 0 then 100 else 0)
  else
    let change := ((current - previous) / previous) * 100 in
    Math_round (change * 100) / 100.


(** [calculatePercentage(partialCost, totalCost)] *)
Definition calculatePercentage (partialCost totalCost : Q) : Q :=
  if eqb totalCost 0 then 0
  else
    let percentage := (partialCost / totalCost) * 100 in
    Math_round (percentage * 100) / 100.

Inductive Trend : Type := increasing | decreasing | stable.

Definition Trend_eqb (a b : Trend) : bool :=
  match a, b with
  | increasing, increasing | decreasing, decreasing | stable, stable => true
  | _, _ => false
  end.

(** [determineTrend(percentageChange, threshold = 5)] *)
Definition determineTrend (percentageChange : Q) (threshold : option Q) : Trend :=
  let threshold := dflt 5 threshold in
  let absChange := Math_abs percentageChange in
  if ltb absChange threshold then stable
  else if gtb percentageChange 0 then increasing else decreasing.

End CostCalc.

(* ================================================================== *)
(** * The JavaScript calendar (ECMA-262, Date objects) *)

Module JsDate.

Local Open Scope Z_scope.

(** The content of a "YYYY-MM-DD" string; [month] is 1-based. *)
Record IsoDate : Type := mkIso { year : Z; month : Z; day : Z }.

Definition IsoDate_eqb (a b : IsoDate) : bool :=
  (year a =? year b) && (month a =? month b) && (day a =? day b).

(** Order of two dates as their "YYYY-MM-DD" strings compare. *)
Definition IsoDate_leb (a b : IsoDate) : bool :=
  (year a <? year b)
  || ((year a =? year b)
      && ((month a <? month b)
          || ((month a =? month b) && (day a <=? day b)))).

(** The string of a date with a four-digit year,
    [`${year}-${String(month).padStart(2, '0')}-${String(day).padStart(2, '0')}`]. *)
Definition isoString (a : IsoDate) : string :=
  (Num.Z_toString (year a) ++ "-" ++ Num.padStart2 (Num.Z_toString (month a))
     ++ "-" ++ Num.padStart2 (Num.Z_toString (day a)))%string.

Definition msPerDay : Z := 86400000.

Definition Day (t : Z) : Z := t / msPerDay.
Definition TimeWithinDay (t : Z) : Z := t mod msPerDay.
Definition MakeDate (d time : Z) : Z := d * msPerDay + time.

Definition DaysInYear (y : Z) : Z :=
  if negb (y mod 4 =? 0) then 365
  else if negb (y mod 100 =? 0) then 366
  else if negb (y mod 400 =? 0) then 365
  else 366.

Definition DayFromYear (y : Z) : Z :=
  365 * (y - 1970) + (y - 1969) / 4 - (y - 1901) / 100 + (y - 1601) / 400.

(** [YearFromTime] on day numbers: the largest [y] with
    [DayFromYear y <= d], found from an estimate that is off by at most
    one year. *)
Definition YearFromDay (d : Z) : Z :=
  let y := 1970 + (400 * d) / 146097 in
  if d <? DayFromYear y then y - 1
  else if DayFromYear (y + 1) <=? d then y + 1
  else y.

(** [InLeapYear], as 0 or 1, from the year. *)
Definition InLeapYear (y : Z) : Z := if DaysInYear y =? 365 then 0 else 1.

Definition DayWithinYear (d : Z) : Z := d - DayFromYear (YearFromDay d).

(** Day number within the year of the first day of month [mn] (0-based). *)
Definition monthStart (leap mn : Z) : Z :=
  match mn with
  | 0 => 0
  | 1 => 31
  | 2 => 59 + leap
  | 3 => 90 + leap
  | 4 => 120 + leap
  | 5 => 151 + leap
  | 6 => 181 + leap
  | 7 => 212 + leap
  | 8 => 243 + leap
  | 9 => 273 + leap
  | 10 => 304 + leap
  | _ => 334 + leap
  end.

(** The month, 0-based, of day [w] (from 0) of a year; [leap] is 1 in a
    leap year and 0 otherwise. *)
Definition monthWithin (leap w : Z) : Z :=
  if w <? 31 then 0
  else if w <? 59 + leap then 1
  else if w <? 90 + leap then 2
  else if w <? 120 + leap then 3
  else if w <? 151 + leap then 4
  else if w <? 181 + leap then 5
  else if w <? 212 + leap then 6
  else if w <? 243 + leap then 7
  else if w <? 273 + leap then 8
  else if w <? 304 + leap then 9
  else if w <? 334 + leap then 10
  else 11.

(** [MonthFromTime], 0-based, on day numbers. *)
Definition MonthFromDay (d : Z) : Z :=
  monthWithin (InLeapYear (YearFromDay d)) (DayWithinYear d).

(** [DateFromTime] on day numbers. *)
Definition DateFromDay (d : Z) : Z :=
  DayWithinYear d - monthStart (InLeapYear (YearFromDay d)) (MonthFromDay d) + 1.

(** [MakeDay(year, month, date)]: [month] is 0-based and may lie outside
    0..11, [date] may lie outside the month. *)
Definition MakeDay (y m dt : Z) : Z :=
  let ym := y + m / 12 in
  let mn := m mod 12 in
  DayFromYear ym + monthStart (InLeapYear ym) mn + dt - 1.

(** Two-digit years of the [Date(year, month, ...)] constructor. *)
Definition MakeFullYear (y : Z) : Z :=
  if (0 <=? y) && (y <=? 99) then 1900 + y else y.

Section LocalTime.

(** Offset of the host's local time from UTC, in milliseconds. *)
Variable tza : Z.

Definition LocalTime (t : Z) : Z := t + tza.
Definition UTC (t : Z) : Z := t - tza.

(** [new Date(year, monthIndex, day)] *)
Definition Date_ymd (y m dt : Z) : Z :=
  UTC (MakeDate (MakeDay (MakeFullYear y) m dt) 0).

Definition getFullYear (t : Z) : Z := YearFromDay (Day (LocalTime t)).
Definition getMonth (t : Z) : Z := MonthFromDay (Day (LocalTime t)).
Definition getDate (t : Z) : Z := DateFromDay (Day (LocalTime t)).

(** [d.setDate(dt)]: the new time value of [d]. *)
Definition setDate (t dt : Z) : Z :=
  let lt := LocalTime t in
  UTC (MakeDate (MakeDay (YearFromDay (Day lt)) (MonthFromDay (Day lt)) dt)
                (TimeWithinDay lt)).

End LocalTime.

(** [new Date("YYYY-MM-DD")]: midnight UTC of that day. *)
Definition Date_iso (s : IsoDate) : Z :=
  MakeDate (MakeDay (year s) (month s - 1) (day s)) 0.

(** [d.toISOString().split('T')[0]] *)
Definition toISODate (t : Z) : IsoDate :=
  let d := Day t in
  mkIso (YearFromDay d) (MonthFromDay d + 1) (DateFromDay d).

(** Number of days of month [m] (1-based) of year [y]. *)
Definition daysInMonth (y m : Z) : Z :=
  match m with
  | 2 => 28 + InLeapYear y
  | 4 | 6 | 9 | 11 => 30
  | _ => 31
  end.

(** English month names, as [toLocaleString('en-US', {month: 'long'})]
    gives them; [m] is 0-based. *)
Definition monthLong (m : Z) : string :=
  match m with
  | 0 => "January" | 1 => "February" | 2 => "March" | 3 => "April"
  | 4 => "May" | 5 => "June" | 6 => "July" | 7 => "August"
  | 8 => "September" | 9 => "October" | 10 => "November"
  | _ => "December"
  end%string.

End JsDate.

(* ================================================================== *)
(** * Strings and the two regular expressions of the period resolver *)

Module Str.

Local Open Scope string_scope.
Local Open Scope nat_scope.

Definition inRange (lo hi : nat) (c : ascii) : bool :=
  let n := nat_of_ascii c in Nat.leb lo n && Nat.leb n hi.

(** [\d] *)
Definition isDigit (c : ascii) : bool := inRange 48 57 c.
Definition isUpper (c : ascii) : bool := inRange 65 90 c.
Definition isLower (c : ascii) : bool := inRange 97 122 c.

(** [\w]: letters, digits and the underscore. *)
Definition isWordChar (c : ascii) : bool :=
  isDigit c || isUpper c || isLower c || Ascii.eqb c "_"%char.

Definition lowerChar (c : ascii) : ascii :=
  if isUpper c then ascii_of_nat (nat_of_ascii c + 32) else c.

(** [s.toLowerCase()], on the ASCII letters. *)
Fixpoint toLowerCase (s : string) : string :=
  match s with
  | EmptyString => EmptyString
  | String c r => String (lowerChar c) (toLowerCase r)
  end.

(** [s.startsWith(p)] *)
Fixpoint startsWith (p s : string) : bool :=
  match p, s with
  | EmptyString, _ => true
  | String a p', String b s' => Ascii.eqb a b && startsWith p' s'
  | String _ _, EmptyString => false
  end.

(** [s.includes(p)] *)
Fixpoint includes (s p : string) : bool :=
  startsWith p s
  || match s with
     | EmptyString => false
     | String _ r => includes r p
     end.

(** The character after position 0 of [s] ends a word: [\b] after a word
    character. *)
Definition wordEnds (s : string) : bool :=
  match s with
  | EmptyString => true
  | String c _ => negb (isWordChar c)
  end.

(** [\d{4}\b] at the head of [s]. *)
Definition fourDigitsAt (s : string) : bool :=
  match s with
  | String a (String b (String c (String d r))) =>
      isDigit a && isDigit b && isDigit c && isDigit d && wordEnds r
  | _ => false
  end.

(** Search for [\b\d{4}\b]; [prevWord] tells whether the character before
    [s] is a word character. *)
Fixpoint yearSearch (prevWord : bool) (s : string) : bool :=
  match s with
  | EmptyString => false
  | String c r => (negb prevWord && fourDigitsAt s) || yearSearch (isWordChar c) r
  end.

(** [/\b\d{4}\b/.test(query)] *)
Definition hasYearToken (query : string) : bool := yearSearch false query.

Definition monthNames : list string :=
  [ "January"; "February"; "March"; "April"; "May"; "June"; "July";
    "August"; "September"; "October"; "November"; "December" ]%string.

(** [name] at the head of [s], letters compared without case; gives the
    matched text and the rest. *)
Fixpoint matchNoCase (name s : string) : option (string * string) :=
  match name, s with
  | EmptyString, _ => Some (EmptyString, s)
  | String a n', String b s' =>
      if Ascii.eqb (lowerChar a) (lowerChar b) then
        match matchNoCase n' s' with
        | Some (m, r) => Some (String b m, r)
        | None => None
        end
      else None
  | String _ _, EmptyString => None
  end.

(** The alternation [(January|...|December)\b] at the head of [s]: the first
    alternative that matches and is followed by a word boundary. *)
Fixpoint altAt (names : list string) (s : string) : option string :=
  match names with
  | [] => None
  | n :: ns =>
      match matchNoCase n s with
      | Some (m, r) => if wordEnds r then Some m else altAt ns s
      | None => altAt ns s
      end
  end.

Fixpoint monthSearch (prevWord : bool) (s : string) : option string :=
  match s with
  | EmptyString => None
  | String c r =>
      match (if prevWord then None else altAt monthNames s) with
      | Some m => Some m
      | None => monthSearch (isWordChar c) r
      end
  end.

(** [query.match(/\b(January|...|December)\b/i)]: capture group 1 of the
    leftmost match. *)
Definition monthOnlyMatch (query : string) : option string :=
  monthSearch false query.

(** Position of [name] in [monthNames], 0-based, letters compared without
    case. *)
Fixpoint indexNoCase (names : list string) (name : string) (i : Z) : option Z :=
  match names with
  | [] => None
  | n :: ns =>
      if String.eqb (toLowerCase n) (toLowerCase name) then Some i
      else indexNoCase ns name (i + 1)%Z
  end.

End Str.

(* ================================================================== *)
(** * The interface of chrono-node used by the period resolver *)

Module Chrono.

(** What the resolver reads from [span.start]: [get('year')],
    [get('month')], [get('day')] (a number or null), [isCertain('day')] and
    [date()] (a time value). *)
Record ParsedComponents : Type := mkComponents {
  get_year : option Z;
  get_month : option Z;
  get_day : option Z;
  isCertain_day : bool;
  date : Z
}.

Record ParsedResult : Type := mkResult { start : ParsedComponents }.

End Chrono.

(* ================================================================== *)
(** * date-helpers.ts and the period resolver of aws-cost-fetcher.ts *)

Module Period.

Import JsDate.
Local Open Scope Z_scope.

Record Period : Type := mkPeriod { start : IsoDate; end_ : IsoDate }.

Definition Period_eqb (p q : Period) : bool :=
  IsoDate_eqb (start p) (start q) && IsoDate_eqb (end_ p) (end_ q).

(** A JavaScript value used as a condition: null and 0 are falsy. *)
Definition truthy (v : option Z) : bool :=
  match v with
  | Some n => negb (n =? 0)
  | None => false
  end.

Definition valueOf (v : option Z) : Z := Num.dflt 0 v.

Section Resolver.

(** Offset of the host's local time from UTC, in milliseconds. *)
Variable tza : Z.

(** [chrono.parse(query, now, { forwardDate: false })] *)
Variable chrono_parse : string -> Z -> list Chrono.ParsedResult.

(** The reference instant, [new Date()]. *)
Variable now : Z.

(** [getMonthRange(monthOffset)] *)
Definition getMonthRange (monthOffset : Z) : Period :=
  let year := getFullYear tza now in
  let month := getMonth tza now + monthOffset in
  let startDate := Date_ymd tza year month 1 in
  let endDate := Date_ymd tza year (month + 1) 0 in
  mkPeriod (toISODate startDate) (toISODate endDate).

(** [new Date(`${monthName} 1, ${currentYear}`).getMonth() + 1] *)
Definition monthIndexOf (monthName : string) : Z :=
  valueOf (Str.indexNoCase Str.monthNames monthName 0) + 1.

(** Steps 3 to 5 of [extractPeriodFromQuery]: chrono-node, then the
    substring heuristics, then the default. *)
Definition fallbackPeriod (query : string) : Period :=
  let lowerQuery := Str.toLowerCase query in
  if Str.includes lowerQuery "this month" || Str.includes lowerQuery "current month"
  then getMonthRange 0
  else if Str.includes lowerQuery "last month" || Str.includes lowerQuery "previous month"
  then getMonthRange (-1)
  else getMonthRange 0.

Definition generalPeriod (query : string) : Period :=
  match chrono_parse query now with
  | span :: _ =>
      let c := Chrono.start span in
      let year := Chrono.get_year c in
      let month := Chrono.get_month c in
      if truthy year && truthy month && negb (Chrono.isCertain_day c) then
        let y := valueOf year in
        let m := valueOf month in
        let endDay := getDate tza (Date_ymd tza y m 0) in
        mkPeriod (mkIso y m 1) (mkIso y m endDay)
      else if Chrono.isCertain_day c then
        let iso := toISODate (Chrono.date c) in
        mkPeriod iso iso
      else fallbackPeriod query
  | [] => fallbackPeriod query
  end.

(** [extractPeriodFromQuery(query)] *)
Definition extractPeriodFromQuery (query : string) : Period :=
  let currentYear := getFullYear tza now in
  let hasYear := Str.hasYearToken query in
  match (if negb hasYear then Str.monthOnlyMatch query else None) with
  | Some monthName =>
      let monthIndex := monthIndexOf monthName in
      let endDay := getDate tza (Date_ymd tza currentYear monthIndex 0) in
      mkPeriod (mkIso currentYear monthIndex 1)
               (mkIso currentYear monthIndex endDay)
  | None => generalPeriod query
  end.

(** The period that [fetchPreviousPeriodData(client, startDate, endDate,
    ...)] passes to [fetchCostData]. *)
Definition previousPeriod (startDate endDate : IsoDate) : Period :=
  let start := Date_iso startDate in
  let end_ := Date_iso endDate in
  let daysDiff := Num.ceil_div (end_ - start) (1000 * 60 * 60 * 24) in
  let prevEnd := setDate tza start (getDate tza start - 1) in
  let prevStart := setDate tza prevEnd (getDate tza prevEnd - daysDiff + 1) in
  mkPeriod (toISODate prevStart) (toISODate prevEnd).

End Resolver.

(** [isValidPeriod(start, end)] for two well-formed dates. *)
Definition isValidPeriod (start end_ : IsoDate) : bool :=
  Date_iso start <=? Date_iso end_.

(** Number of calendar days from [a] to [b], both included. *)
Definition daysInclusive (a b : IsoDate) : Z :=
  Day (Date_iso b) - Day (Date_iso a) + 1.

(** The day [n] days before (after, for negative [n]) date [a]. *)
Definition minusDays (a : IsoDate) (n : Z) : IsoDate :=
  toISODate (Date_iso a - n * msPerDay).

End Period.

(* ================================================================== *)
(** * aws-cost-data.ts *)

Module Types.

Import CostCalc.

(** [MetricValue]; [Amount] is the number its decimal string denotes. *)
Record MetricValue : Type := mkMetric { Amount : Q; Unit : string }.

(** [Group]; [Metrics] is the entry under the key 'UnblendedCost', when
    there is one. *)
Record Group : Type := mkGroup {
  Keys : list string;
  Metrics : option MetricValue
}.

(** [ResultByTime]; [Total] is the entry under 'UnblendedCost', [Groups]
    may be missing. *)
Record ResultByTime : Type := mkResultByTime {
  Total : option MetricValue;
  Groups : option (list Group)
}.

Record CostExplorerResponse : Type := mkResponse {
  ResultsByTime : list ResultByTime
}.

Record ServiceCostData : Type := mkService {
  name : string;
  cost : Q;
  percentage : Q;
  previousPeriodChange : option Q
}.

Record TrendData : Type := mkTrends {
  monthOverMonth : option Q;
  trend : Trend
}.

Record ProcessedCostData : Type := mkData {
  period : Period.Period;
  totalCost : Q;
  currency : string;
  services : list ServiceCostData;
  trends : TrendData;
  summary : string
}.

End Types.

(* ================================================================== *)
(** * cost-calculations.ts: formatting, ranking and the summary *)

Module Report.

Import Num CostCalc Types.
Local Open Scope Q_scope.

(** [(a, b) => b.cost - a.cost] *)
Definition byCostDesc (a b : ServiceCostData) : Q := cost b - cost a.

(** [Array.prototype.sort(comparefn)] is a stable sort: [insertSorted]
    puts [x], which precedes every element of [l] in the array, before the
    first element that must not precede it. *)
Fixpoint insertSorted {A : Type} (cmp : A -> A -> Q) (x : A) (l : list A) : list A :=
  match l with
  | [] => [x]
  | y :: r => if Qle_bool (cmp x y) 0 then x :: y :: r
              else y :: insertSorted cmp x r
  end.

Definition sort {A : Type} (cmp : A -> A -> Q) (l : list A) : list A :=
  fold_right (insertSorted cmp) [] l.

(** [getTopServices(services, topN = 10)]: the returned slice, and the
    [services] array as the caller sees it after the call. *)
Definition getTopServices (services : list ServiceCostData) (topN : option nat)
  : list ServiceCostData * list ServiceCostData :=
  let topN := dflt 10%nat topN in
  let sorted := sort byCostDesc services in
  (firstn topN sorted, sorted).

(** [xs.join(sep)] *)
Fixpoint join (sep : string) (xs : list string) : string :=
  match xs with
  | [] => EmptyString
  | [x] => x
  | x :: r => (x ++ sep ++ join sep r)%string
  end.

Section Rendering.

(** Offset of the host's local time from UTC, in milliseconds. *)
Variable tza : Z.

(** [new Intl.NumberFormat(locale, { style: 'currency', currency, ... })
    .format(amount)] *)
Variable Intl_format : string -> string -> Q -> string.

(** [String(x)] for a number [x]. *)
Variable Number_toString : Q -> string.

(** [formatCurrency(amount, currency = 'USD', locale = 'en-US')] *)
Definition formatCurrency (amount : Q) (currency locale : option string) : string :=
  Intl_format (dflt "en-US"%string locale) (dflt "USD"%string currency) amount.

(** [formatPercentage(percentage, showSign = true)] *)
Definition formatPercentage (percentage : Q) (showSign : option bool) : string :=
  let showSign := dflt true showSign in
  let sign := if showSign && gtb percentage 0 then "+"%string else ""%string in
  (sign ++ Number_toString percentage ++ "%")%string.

(** [!x] for an optional number. *)
Definition falsy (x : option Q) : bool :=
  match x with
  | None => true
  | Some v => eqb v 0
  end.

Definition trendWord (t : Trend) : string :=
  match t with
  | increasing => "increase"
  | decreasing => "decrease"
  | stable => "stable"
  end%string.

Definition serviceText (s : ServiceCostData) : string :=
  (name s ++ " (" ++ formatCurrency (cost s) None None ++ ", "
     ++ formatPercentage (percentage s) (Some false) ++ ")")%string.

(** The label of the period, [`${month} ${year}`]. *)
Definition periodLabel (data : ProcessedCostData) : string :=
  let startDate := JsDate.Date_iso (Period.start (period data)) in
  let year := JsDate.getFullYear tza startDate in
  let month := JsDate.monthLong (JsDate.getMonth tza startDate) in
  (month ++ " " ++ Z_toString year)%string.

Definition shortSummary (data : ProcessedCostData) : string :=
  ("Total cost for " ++ periodLabel data ++ " was "
     ++ formatCurrency (totalCost data) (Some (currency data)) None ++ ".")%string.

Definition fullSummary (data : ProcessedCostData) (change : Q)
           (top : list ServiceCostData) : string :=
  ("Total cost for " ++ periodLabel data ++ " was "
     ++ formatCurrency (totalCost data) (Some (currency data)) None
     ++ ", showing " ++ formatPercentage change None ++ " "
     ++ trendWord (trend (trends data))
     ++ " compared to previous period. Top costs: "
     ++ join ", " (map serviceText top))%string.

(** [generateCostSummary(data)] with [N] top services: the summary, and
    the [data.services] array as the caller sees it after the call. *)
Definition generateCostSummaryTop (N : nat) (data : ProcessedCostData)
  : string * list ServiceCostData :=
  if falsy (monthOverMonth (trends data)) then
    (shortSummary data, services data)
  else
    let percentageChange := dflt 0 (monthOverMonth (trends data)) in
    let '(topServices, arr) := getTopServices (services data) (Some N) in
    (fullSummary data percentageChange topServices, arr).

(** cost-calculations.ts lists the top 3 services. *)
Definition generateCostSummary := generateCostSummaryTop 3.

(** The second copy of the function in the repository lists the top 5. *)
Definition generateCostSummary5 := generateCostSummaryTop 5.

Definition suggestionFor (service : ServiceCostData) : list string :=
  let c := formatCurrency (cost service) None None in
  if String.eqb (name service) "Amazon Elastic Compute Cloud - Compute" then
    [("EC2 instances (" ++ c
        ++ "): Consider Reserved Instances for 20-40% cost savings.")%string]
  else if String.eqb (name service) "Amazon Simple Storage Service" then
    [("S3 storage (" ++ c
        ++ "): Consider Intelligent-Tiering and lifecycle policies.")%string]
  else if String.eqb (name service) "Amazon Relational Database Service" then
    [("RDS (" ++ c
        ++ "): Consider right-sizing and Reserved Instances.")%string]
  else if gtb (cost service) 500 then
    [(name service ++ " (" ++ c
        ++ "): Review usage patterns and optimization opportunities.")%string]
  else [].

(** [generateCostOptimizationSuggestions(services, threshold = 100)]: the
    suggestions, and the [services] array as the caller sees it after the
    call. *)
Definition generateCostOptimizationSuggestions
           (services : list ServiceCostData) (threshold : option Q)
  : list string * list ServiceCostData :=
  let threshold := dflt 100 threshold in
  let '(topServices, arr) := getTopServices services (Some 5%nat) in
  (flat_map (fun service =>
               if ltb (cost service) threshold then [] else suggestionFor service)
            topServices,
   arr).

End Rendering.

End Report.

(* ================================================================== *)
(** * aws-cost-fetcher.ts: fetching and analysing *)

Module Fetcher.

Import Num CostCalc Types.
Local Open Scope Q_scope.

(** [parseFloat(m?.UnblendedCost?.Amount || '0')] *)
Definition amountOf (m : option MetricValue) : Q :=
  match m with
  | Some v => Amount v
  | None => 0
  end.

(** [s || d] for a string that may be missing. *)
Definition orElse (s : option string) (d : string) : string :=
  match s with
  | Some v => if String.eqb v "" then d else v
  | None => d
  end.

(** [for (const group of groups) total += parseFloat(...)], from 0. *)
Definition sumGroups (groups : list Group) : Q :=
  fold_left (fun total group => total + amountOf (Metrics group)) groups 0.

Definition groupsOf (r : option ResultByTime) : option (list Group) :=
  match r with
  | Some res => Groups res
  | None => None
  end.

Definition totalOf (r : option ResultByTime) : option MetricValue :=
  match r with
  | Some res => Total res
  | None => None
  end.

(** [previousTotalCost]: the declared total of the previous period,
    replaced by the sum of the groups when it is 0 and there are groups. *)
Definition previousTotalCostOf (previousResults : option ResultByTime) : Q :=
  let previousTotalCost := amountOf (totalOf previousResults) in
  match groupsOf previousResults with
  | Some groups => if eqb previousTotalCost 0 then sumGroups groups
                   else previousTotalCost
  | None => previousTotalCost
  end.

(** [previousResults?.Groups?.find(g => g.Keys?.[0] === serviceName)] *)
Definition findGroup (previousResults : option ResultByTime) (serviceName : string)
  : option Group :=
  match groupsOf previousResults with
  | Some groups =>
      find (fun g => match hd_error (Keys g) with
                     | Some k => String.eqb k serviceName
                     | None => false
                     end) groups
  | None => None
  end.

Definition metricsOf (g : option Group) : option MetricValue :=
  match g with
  | Some grp => Metrics grp
  | None => None
  end.

(** One iteration of the loop over the groups of the current period: the
    entry pushed on [services]. *)
Definition serviceOf (previousResults : option ResultByTime) (group : Group)
  : ServiceCostData :=
  let serviceName := orElse (hd_error (Keys group)) "Unknown" in
  let serviceCost := amountOf (Metrics group) in
  let previousServiceCost := amountOf (metricsOf (findGroup previousResults serviceName)) in
  let previousPeriodChange :=
    if gtb previousServiceCost 0
    then calculatePercentageChange serviceCost previousServiceCost
    else if gtb serviceCost 0 then 100 else 0 in
  mkService serviceName serviceCost 0 (Some previousPeriodChange).

(** [totalCost]: the declared total of the current period when it is
    positive, else the sum of the groups. *)
Definition totalCostOf (currentResults : option ResultByTime) : Q :=
  let apiTotalCost := amountOf (totalOf currentResults) in
  let calculatedTotalCost := sumGroups (dflt [] (groupsOf currentResults)) in
  if gtb apiTotalCost 0 then apiTotalCost else calculatedTotalCost.

(** [service.percentage = totalCost > 0 ? (service.cost / totalCost) * 100 : 0] *)
Definition withPercentage (totalCost : Q) (service : ServiceCostData)
  : ServiceCostData :=
  mkService (name service) (cost service)
            (if gtb totalCost 0 then (cost service / totalCost) * 100 else 0)
            (previousPeriodChange service).

Section Analysis.

Variable tza : Z.
Variable Intl_format : string -> string -> Q -> string.
Variable Number_toString : Q -> string.

(** [fetchCostData(client, startDate, endDate, 'MONTHLY', groupBy)]: the
    response of the API, returned as received; the total the function
    computes from the groups when the declared amount is '0' only goes to
    the debug log. [send] is [client.send] on the period of the request. *)
Definition fetchCostData (send : Period.Period -> CostExplorerResponse)
           (startDate endDate : JsDate.IsoDate) : CostExplorerResponse :=
  send (Period.mkPeriod startDate endDate).

(** [fetchPreviousPeriodData(client, startDate, endDate, 'MONTHLY', groupBy)] *)
Definition fetchPreviousPeriodData (send : Period.Period -> CostExplorerResponse)
           (startDate endDate : JsDate.IsoDate) : CostExplorerResponse :=
  let prev := Period.previousPeriod tza startDate endDate in
  fetchCostData send (Period.start prev) (Period.end_ prev).

(** [processAndAnalyzeCostData(currentData, previousData, period)] *)
Definition processAndAnalyzeCostData
           (currentData previousData : CostExplorerResponse)
           (period : Period.Period) : ProcessedCostData :=
  let currentResults := hd_error (ResultsByTime currentData) in
  let currency :=
    orElse (option_map Unit (totalOf currentResults)) "USD" in
  let previousResults := hd_error (ResultsByTime previousData) in
  let previousTotalCost := previousTotalCostOf previousResults in
  let services :=
    map (serviceOf previousResults) (dflt [] (groupsOf currentResults)) in
  let totalCost := totalCostOf currentResults in
  let services := map (withPercentage totalCost) services in
  let monthOverMonth :=
    if gtb previousTotalCost 0
    then calculatePercentageChange totalCost previousTotalCost
    else if gtb totalCost 0 then 100 else 0 in
  let trends := mkTrends (Some monthOverMonth) (determineTrend monthOverMonth None) in
  let services := Report.sort Report.byCostDesc services in
  let tempData := mkData period totalCost currency services trends "" in
  let '(summary, services) :=
    Report.generateCostSummary tza Intl_format Number_toString tempData in
  mkData period totalCost currency services trends summary.

End Analysis.


(** Sum of the amounts of the reported services. *)
Definition sumCosts (services : list ServiceCostData) : Q :=
  fold_right (fun s acc => cost s + acc) 0 services.

End Fetcher.

(* ================================================================== *)
(** * error-handlers.ts *)

Module Errors.

Local Open Scope string_scope.

Inductive AWSErrorType : Type :=
| AUTHENTICATION
| AUTHORIZATION
| THROTTLING
| INVALID_PARAMETER
| SERVICE_UNAVAILABLE
| QUOTA_EXCEEDED
| UNKNOWN.

Definition AWSErrorType_toString (t : AWSErrorType) : string :=
  match t with
  | AUTHENTICATION => "AUTHENTICATION"
  | AUTHORIZATION => "AUTHORIZATION"
  | THROTTLING => "THROTTLING"
  | INVALID_PARAMETER => "INVALID_PARAMETER"
  | SERVICE_UNAVAILABLE => "SERVICE_UNAVAILABLE"
  | QUOTA_EXCEEDED => "QUOTA_EXCEEDED"
  | UNKNOWN => "UNKNOWN"
  end.

(** [ErrorResponse]; [success] is always false. *)
Record ErrorResponse : Type := mkErrorResponse {
  success : bool;
  error : string;
  errorType : string;
  suggestions : list string;
  retryable : bool
}.

(** The caught value, of type [unknown]:
    - [Falsy]: undefined, null, false, 0, NaN or the empty string;
    - [ErrorObject name message]: an instance of [Error];
    - [Thrown s]: any other value, [s] being [String(error)]. *)
Inductive Caught : Type :=
| Falsy
| ErrorObject (name message : string)
| Thrown (s : string).

(** [Error.prototype.toString] *)
Definition Error_toString (name message : string) : string :=
  if String.eqb name "" then message
  else if String.eqb message "" then name
  else name ++ ": " ++ message.

(** [createErrorResponse(errorType, message, suggestions = [], retryable = false)] *)
Definition createErrorResponse (errorType : AWSErrorType) (message : string)
           (suggestions : option (list string)) (retryable : option bool)
  : ErrorResponse :=
  mkErrorResponse false message (AWSErrorType_toString errorType)
                  (Num.dflt [] suggestions) (Num.dflt false retryable).

(** [err.message || err.toString()], with
    [err = error instanceof Error ? error : new Error(String(error))]. *)
Definition errorMessageOf (name message : string) : string :=
  if String.eqb message "" then Error_toString name message else message.

Definition anyIncluded (errorMessage : string) (patterns : list string) : bool :=
  existsb (Str.includes errorMessage) patterns.

(** [handleAWSError(error)] *)
Definition handleAWSError (error : Caught) : ErrorResponse :=
  match error with
  | Falsy => createErrorResponse UNKNOWN "Unknown error occurred" None None
  | _ =>
    let errorMessage :=
      match error with
      | ErrorObject name message => errorMessageOf name message
      | Thrown s => errorMessageOf "Error" s
      | Falsy => ""
      end in
    if anyIncluded errorMessage
         [ "The security token included in the request is invalid";
           "SignatureDoesNotMatch"; "InvalidAccessKeyId" ]
    then createErrorResponse AUTHENTICATION
           "AWS credentials are invalid. Please check your access key and secret key."
           (Some [ "1. Check AWS_ACCESS_KEY_ID and AWS_SECRET_ACCESS_KEY in .env file";
                   "2. Verify access key is valid in AWS Console";
                   "3. Ensure IAM user is in active status" ])
           (Some false)
    else if anyIncluded errorMessage
         [ "UnauthorizedOperation"; "AccessDenied"; "Forbidden" ]
    then createErrorResponse AUTHORIZATION
           "Insufficient access permissions to AWS Cost Explorer."
           (Some [ "1. Grant Cost Explorer permissions to IAM user";
                   "2. Required permissions: ce:GetCostAndUsage, ce:GetDimensionValues";
                   "3. Ask administrator to review IAM policies" ])
           (Some false)
    else if anyIncluded errorMessage
         [ "Throttling"; "RequestLimitExceeded"; "TooManyRequests" ]
    then createErrorResponse THROTTLING
           "AWS API rate limit reached. Please wait a moment and try again."
           (Some [ "1. Wait 5-10 minutes before retrying";
                   "2. Avoid consecutive rapid executions";
                   "3. Contact AWS support for limit increase if needed" ])
           (Some true)
    else if anyIncluded errorMessage
         [ "ValidationException"; "InvalidParameter"; "invalid date" ]
    then createErrorResponse INVALID_PARAMETER
           "Request parameters are invalid. Please check date range and specification."
           (Some [ "1. Ensure date format is YYYY-MM-DD";
                   "2. Verify start date is before end date";
                   "3. Specify period within the last 13 months" ])
           (Some false)
    else if anyIncluded errorMessage
         [ "You haven't enabled historical data"; "historical data beyond" ]
    then createErrorResponse INVALID_PARAMETER
           "Cost Explorer historical data is not enabled or data for the specified period does not exist."
           (Some [ "1. Enable data in AWS Billing and Cost Management (takes 24 hours)";
                   "2. Try retrieving data for a shorter period";
                   "3. Manually check data existence in Cost Explorer" ])
           (Some false)
    else if anyIncluded errorMessage
         [ "ServiceUnavailable"; "InternalError"; "500" ]
    then createErrorResponse SERVICE_UNAVAILABLE
           "AWS Cost Explorer service is temporarily unavailable."
           (Some [ "1. Retry after waiting a moment";
                   "2. Check AWS Service Health Dashboard";
                   "3. Contact AWS support if the problem persists" ])
           (Some true)
    else if anyIncluded errorMessage
         [ "LimitExceeded"; "exceeded your current quota" ]
    then createErrorResponse QUOTA_EXCEEDED
           "AWS account usage limit exceeded."
           (Some [ "1. Check Usage Limits in billing settings";
                   "2. Increase limits as needed";
                   "3. Contact AWS support for limit increase" ])
           (Some false)
    else createErrorResponse UNKNOWN
           ("Unexpected error occurred: " ++ errorMessage)
           (Some [ "1. Retry after waiting a moment";
                   "2. Check environment variable settings";
                   "3. Contact administrator if the problem persists" ])
           (Some true)
  end.

(** The message that [handleAWSError] classifies. *)
Definition messageOf (error : Caught) : option string :=
  match error with
  | Falsy => None
  | ErrorObject name message => Some (errorMessageOf name message)
  | Thrown s => Some (errorMessageOf "Error" s)
  end.

End Errors.

(* ================================================================== *)
(** * Vocabulary of the properties *)

Module Spec.

Import Num CostCalc Types.

(** [r] is [x] rounded to two decimal places: a whole number of hundredths,
    the nearest to [x], the upper one at a tie. *)
Definition RoundedTo2 (x r : Q) : Prop :=
  ((exists k : Z, r == inject_Z k / 100)
   /\ x - (1 # 200) < r /\ r <= x + (1 # 200))%Q.


(** Day number (days since the epoch) of a date. *)
Definition dayNumber (a : JsDate.IsoDate) : Z := JsDate.Day (JsDate.Date_iso a).

(** The first-to-last-day range of month [m] (1-based) of year [y]. *)
Definition wholeMonth (y m : Z) : Period.Period :=
  Period.mkPeriod (JsDate.mkIso y m 1) (JsDate.mkIso y m (JsDate.daysInMonth y m)).

(** [start <= end] *)
Definition ordered (p : Period.Period) : Prop :=
  JsDate.IsoDate_leb (Period.start p) (Period.end_ p) = true.

(** A year that the [Date(year, month, day)] constructor takes as it is. *)
Definition plainYear (y : Z) : Prop := ~ (0 <= y <= 99)%Z.


(** Descending order by cost. *)
Definition costGe (a b : ServiceCostData) : Prop := (cost b <= cost a)%Q.
Definition DescByCost (l : list ServiceCostData) : Prop := StronglySorted costGe l.

(** The signatures that [handleAWSError] looks for, with their class. *)
Definition signatures : list (string * Errors.AWSErrorType) :=
  [ ("The security token included in the request is invalid", Errors.AUTHENTICATION);
    ("SignatureDoesNotMatch", Errors.AUTHENTICATION);
    ("InvalidAccessKeyId", Errors.AUTHENTICATION);
    ("UnauthorizedOperation", Errors.AUTHORIZATION);
    ("AccessDenied", Errors.AUTHORIZATION);
    ("Forbidden", Errors.AUTHORIZATION);
    ("Throttling", Errors.THROTTLING);
    ("RequestLimitExceeded", Errors.THROTTLING);
    ("TooManyRequests", Errors.THROTTLING);
    ("ValidationException", Errors.INVALID_PARAMETER);
    ("InvalidParameter", Errors.INVALID_PARAMETER);
    ("invalid date", Errors.INVALID_PARAMETER);
    ("You haven't enabled historical data", Errors.INVALID_PARAMETER);
    ("historical data beyond", Errors.INVALID_PARAMETER);
    ("ServiceUnavailable", Errors.SERVICE_UNAVAILABLE);
    ("InternalError", Errors.SERVICE_UNAVAILABLE);
    ("500", Errors.SERVICE_UNAVAILABLE);
    ("LimitExceeded", Errors.QUOTA_EXCEEDED);
    ("exceeded your current quota", Errors.QUOTA_EXCEEDED) ]%string.

(** The class of the first signature, in the order of the table, that the
    message includes; [UNKNOWN] when there is none. *)
Fixpoint classify (table : list (string * Errors.AWSErrorType)) (msg : string)
  : Errors.AWSErrorType :=
  match table with
  | [] => Errors.UNKNOWN
  | (p, c) :: rest => if Str.includes msg p then c else classify rest msg
  end.

Definition retryableClass (c : Errors.AWSErrorType) : bool :=
  match c with
  | Errors.THROTTLING | Errors.SERVICE_UNAVAILABLE | Errors.UNKNOWN => true
  | _ => false
  end.

Definition authorizationAdvice : list string :=
  [ "1. Grant Cost Explorer permissions to IAM user";
    "2. Required permissions: ce:GetCostAndUsage, ce:GetDimensionValues";
    "3. Ask administrator to review IAM policies" ]%string.

End Spec.

(* ================================================================== *)
(** * date-helpers.ts: the remaining functions *)

Module DateHelpers.

Import JsDate.
Local Open Scope Z_scope.

Section Host.

(** Offset of the host's local time from UTC, in milliseconds. *)
Variable tza : Z.

(** The current instant, [new Date()]. *)
Variable now : Z.


(** [formatPeriod(start, end)] *)
Definition formatPeriod (start end_ : IsoDate) : string :=
  let startDate := Date_iso start in
  let year := getFullYear tza startDate in
  let month := monthLong (getMonth tza startDate) in
  (month ++ " " ++ Num.Z_toString year)%string.

(** [getCurrentDate()] *)
Definition getCurrentDate : IsoDate := toISODate now.

End Host.

End DateHelpers.

(* ================================================================== *)
(** * aws-cost-fetcher.ts: the tool's [execute] *)

Module Tool.

Import Types.

(** What a failed request throws: an instance of [Error] with its [name]
    and [message], or any other value, [str] being [String(value)]. *)
Inductive Thrown : Type :=
| ThrownError (name message : string)
| ThrownValue (str : string).

(** The object that [execute] returns; [data] and [error] may be absent. *)
Record ToolResult : Type := mkToolResult {
  success : bool;
  data : option ProcessedCostData;
  error : option string
}.

(** [error instanceof Error ? error : new Error(String(error))], as the
    pair of [err.name] and [err.message]. *)
Definition asError (e : Thrown) : string * string :=
  match e with
  | ThrownError name message => (name, message)
  | ThrownValue str => ("Error"%string, str)
  end.

(** The [catch] block of [execute]. *)
Definition onError (e : Thrown) : ToolResult :=
  let '(name, message) := asError e in
  if String.eqb name "ValidationException" then
    mkToolResult false None
      (Some ("AWS Cost Explorer data limitation: " ++ message)%string)
  else
    let errorResponse := Errors.handleAWSError (Errors.ErrorObject name message) in
    mkToolResult false None (Some (Errors.error errorResponse)).

Section Execute.

Variable tza : Z.
Variable chrono_parse : string -> Z -> list Chrono.ParsedResult.
Variable now : Z.
Variable Intl_format : string -> string -> Q -> string.
Variable Number_toString : Q -> string.

(** [client.send(command)] on the period of the command: the response,
    or what the call throws. *)
Variable send : Period.Period -> Thrown + CostExplorerResponse.

(** [execute({ context: { userQuery } })]: the two requests are awaited
    one after the other inside one [try]. *)
Definition execute (userQuery : string) : ToolResult :=
  let extractedPeriod :=
    Period.extractPeriodFromQuery tza chrono_parse now userQuery in
  match send (Period.mkPeriod (Period.start extractedPeriod)
                              (Period.end_ extractedPeriod)) with
  | inl e => onError e
  | inr currentPeriodData =>
      let prev := Period.previousPeriod tza (Period.start extractedPeriod)
                                        (Period.end_ extractedPeriod) in
      match send (Period.mkPeriod (Period.start prev) (Period.end_ prev)) with
      | inl e => onError e
      | inr previousPeriodData =>
          let processedData :=
            Fetcher.processAndAnalyzeCostData tza Intl_format Number_toString
              currentPeriodData previousPeriodData extractedPeriod in
          mkToolResult true (Some processedData) None
      end
  end.

End Execute.

End Tool.

(* ================================================================== *)
(** * config/env.ts *)

Module Env.

Local Open Scope string_scope.


(** [[a-z]+-[0-9]$]: [seen] tells whether a letter has been read. *)
Fixpoint lettersDashDigit (seen : bool) (s : string) : bool :=
  match s with
  | EmptyString => false
  | String c r =>
      if Str.isLower c then lettersDashDigit true r
      else if seen && Ascii.eqb c "-"%char then
        match r with
        | String d EmptyString => Str.isDigit d
        | _ => false
        end
      else false
  end.

(** [/^[a-z]{2}-[a-z]+-[0-9]$/.test(region)] *)
Definition regionOk (region : string) : bool :=
  match region with
  | String a (String b (String c r)) =>
      Str.isLower a && Str.isLower b && Ascii.eqb c "-"%char
      && lettersDashDigit false r
  | _ => false
  end.






Section Zod.

(** The message of zod for a missing value. *)
Variable zod_required : string.

(** The message of zod for a value outside an enumeration. *)
Variable zod_invalid_enum : string -> string.




End Zod.

End Env.

(* ================================================================== *)
(** * Vocabulary of the further properties *)

Module Props.

Import Types.

(** Whether the last character of [s] is a word character; [prev] when [s]
    is empty. *)
Fixpoint lastWord (prev : bool) (s : string) : bool :=
  match s with
  | EmptyString => prev
  | String c r => lastWord (Str.isWordChar c) r
  end.

(** [s] stands in [q] as a word of its own: [q] is [pre ++ s ++ post], with
    no word character right before or right after [s]. *)
Definition standsAlone (s q : string) : Prop :=
  exists pre post,
    q = (pre ++ s ++ post)%string
    /\ lastWord false pre = false /\ Str.wordEnds post = true.

Fixpoint allDigits (s : string) : bool :=
  match s with
  | EmptyString => true
  | String c r => Str.isDigit c && allDigits r
  end.

Fixpoint allLower (s : string) : bool :=
  match s with
  | EmptyString => true
  | String c r => Str.isLower c && allLower r
  end.

(** [name] is the English name of a month, in any case. *)
Definition isMonthName (name : string) : Prop :=
  exists n, In n Str.monthNames /\ Str.toLowerCase name = Str.toLowerCase n.

(** The services of [l] that cost [c], in the order of [l]. *)
Definition costing (c : Q) (l : list ServiceCostData) : list ServiceCostData :=
  filter (fun s => Qeq_bool (cost s) c) l.

(** The first key of a group, when it has one. *)
Definition firstKey (g : Group) : option string := hd_error (Keys g).

(** A date of the calendar. *)
Definition validDate (a : JsDate.IsoDate) : Prop :=
  (1 <= JsDate.month a <= 12
   /\ 1 <= JsDate.day a <= JsDate.daysInMonth (JsDate.year a) (JsDate.month a))%Z.


(** The seven explanations of [handleAWSError] for a classified error. *)
Definition explanations : list string :=
  [ "AWS credentials are invalid. Please check your access key and secret key.";
    "Insufficient access permissions to AWS Cost Explorer.";
    "AWS API rate limit reached. Please wait a moment and try again.";
    "Request parameters are invalid. Please check date range and specification.";
    "Cost Explorer historical data is not enabled or data for the specified period does not exist.";
    "AWS Cost Explorer service is temporarily unavailable.";
    "AWS account usage limit exceeded." ]%string.

End Props.

(* ================================================================== *)
(** * Facts about numbers *)

Module NumFacts.

Import Num.
Local Open Scope Q_scope.

Lemma ltb_true (x y : Q) : ltb x y = true <-> x < y.
Proof.
  unfold ltb. rewrite negb_true_iff. split; intro H.
  - apply Qnot_le_lt. intro L. apply Qle_bool_iff in L. congruence.
  - destruct (Qle_bool y x) eqn:E; auto. apply Qle_bool_iff in E. lra.
Qed.

Lemma ltb_false (x y : Q) : ltb x y = false <-> y <= x.
Proof. unfold ltb. rewrite negb_false_iff. apply Qle_bool_iff. Qed.

Lemma gtb_true (x y : Q) : gtb x y = true <-> y < x.
Proof. apply ltb_true. Qed.

Lemma gtb_false (x y : Q) : gtb x y = false <-> x <= y.
Proof. apply ltb_false. Qed.

Lemma eqb_true (x y : Q) : eqb x y = true <-> x == y.
Proof. apply Qeq_bool_iff. Qed.

Lemma eqb_false (x y : Q) : eqb x y = false <-> ~ x == y.
Proof.
  unfold eqb. split; intro H.
  - intro E. apply Qeq_bool_iff in E. congruence.
  - destruct (Qeq_bool x y) eqn:E; auto. apply Qeq_bool_iff in E. contradiction.
Qed.

Lemma Math_round_bounds (x : Q) :
  x - (1 # 2) < Math_round x /\ Math_round x <= x + (1 # 2).
Proof.
  unfold Math_round.
  pose proof (Qfloor_le (x + (1 # 2))) as Hle.
  pose proof (Qlt_floor (x + (1 # 2))) as Hlt.
  rewrite inject_Z_plus in Hlt. change (inject_Z 1) with 1 in Hlt. lra.
Qed.




Lemma hundredths (x : Q) : Spec.RoundedTo2 x (Math_round (x * 100) / 100).
Proof.
  split.
  - exists (Qfloor (x * 100 + (1 # 2))). reflexivity.
  - destruct (Math_round_bounds (x * 100)) as [A B].
    split.
    + apply Qlt_shift_div_l; lra.
    + apply Qle_shift_div_r; lra.
Qed.

End NumFacts.

(* ================================================================== *)
(** * Percentage change and trend *)

Module CostCalcFacts.

Import Num CostCalc NumFacts.
Local Open Scope Q_scope.











Lemma calculatePercentage_rule (partialCost totalCost : Q) :
  (totalCost == 0 -> calculatePercentage partialCost totalCost == 0)
  /\ (~ totalCost == 0 ->
      Spec.RoundedTo2 (partialCost / totalCost * 100)
                      (calculatePercentage partialCost totalCost)).
Proof.
  unfold calculatePercentage. split; intro H.
  - apply eqb_true in H. rewrite H. reflexivity.
  - apply eqb_false in H. rewrite H. apply hundredths.
Qed.

Example change_new_spend : calculatePercentageChange 200 0 == 100.
Proof. reflexivity. Qed.

Example change_rounded : calculatePercentageChange 110 30 == 26667 # 100.
Proof. reflexivity. Qed.

Example change_tie_rounds_up : calculatePercentageChange 100125 100000 == 13 # 100.
Proof. reflexivity. Qed.

Example change_small_rounds_to_zero : calculatePercentageChange 1000001 1000000 == 0.
Proof. reflexivity. Qed.

Example trend_of_new_spend : determineTrend (calculatePercentageChange 200 0) None = increasing.
Proof. reflexivity. Qed.

Lemma trend_stable_iff (c : Q) (t : option Q) :
  determineTrend c t = stable <-> Qabs c < dflt 5 t.
Proof.
  unfold determineTrend, Math_abs.
  destruct (ltb (Qabs c) (dflt 5 t)) eqn:E.
  - apply ltb_true in E. tauto.
  - apply ltb_false in E. split.
    + destruct (gtb c 0); discriminate.
    + intro H. lra.
Qed.

(** C2. For every change [c] and threshold [t] (5 when omitted):
    [determineTrend] gives [stable] exactly when [|c| < t]; otherwise it
    gives [increasing] for a positive [c] and [decreasing] for a negative
    one; at [|c| = t] the result is not [stable]. *)
Theorem trend_rule (c : Q) (t : option Q) :
  (determineTrend c t = stable <-> Qabs c < dflt 5 t)
  /\ (~ Qabs c < dflt 5 t -> 0 < c -> determineTrend c t = increasing)
  /\ (~ Qabs c < dflt 5 t -> c < 0 -> determineTrend c t = decreasing)
  /\ (Qabs c == dflt 5 t -> determineTrend c t <> stable).
Proof.
  split; [apply trend_stable_iff|].
  assert (NS : ~ Qabs c < dflt 5 t ->
               determineTrend c t = if gtb c 0 then increasing else decreasing).
  { intro H. unfold determineTrend, Math_abs.
    assert (E : ltb (Qabs c) (dflt 5 t) = false) by (apply ltb_false; lra).
    now rewrite E. }
  split; [|split].
  - intros H Hc. rewrite (NS H). apply gtb_true in Hc. now rewrite Hc.
  - intros H Hc. rewrite (NS H).
    assert (G : gtb c 0 = false) by (apply gtb_false; lra). now rewrite G.
  - intros H S. apply trend_stable_iff in S. lra.
Qed.

Lemma trend_rule_witness :
  (determineTrend 3 None = stable <-> Qabs 3 < 5)
  /\ determineTrend 12 (Some 10) = increasing
  /\ determineTrend (-12) (Some 10) = decreasing
  /\ determineTrend 5 None <> stable
  /\ determineTrend (-5) None <> stable.
Proof.
  split; [apply (proj1 (trend_rule 3 None))|].
  split; [apply (proj1 (proj2 (trend_rule 12 (Some 10))));
          [intro H; vm_compute in H; discriminate | reflexivity]|].
  split; [apply (proj1 (proj2 (proj2 (trend_rule (-12) (Some 10)))));
          [intro H; vm_compute in H; discriminate | reflexivity]|].
  split; [apply (proj2 (proj2 (proj2 (trend_rule 5 None)))); reflexivity|].
  apply (proj2 (proj2 (proj2 (trend_rule (-5) None)))); reflexivity.
Defined.

End CostCalcFacts.

(* ================================================================== *)
(** * Facts about the calendar *)

Module CalendarFacts.

Import JsDate.
Local Open Scope Z_scope.

Ltac div_lia := Z.to_euclidean_division_equations; lia.

Ltac table := cbv beta iota delta [monthStart].

(** Case analysis on an integer that the context bounds. *)
Ltac enum m :=
  destruct m as [|m|m]; try lia; repeat (destruct m as [m|m|]; try lia).

Ltac month_len H :=
  match type of H with
  | context [match ?a + 1 with _ => _ end] =>
      let v := eval vm_compute in (a + 1) in
      change (a + 1) with v in H; cbv beta iota in H
  end.

Ltac next_month :=
  match goal with
  | |- context [monthStart ?l (?a + 1)] =>
      let v := eval vm_compute in (a + 1) in change (a + 1) with v
  end.

Ltac split_tests :=
  repeat match goal with
         | |- context [Z.eqb ?a ?b] => destruct (Z.eqb_spec a b)
         | |- context [Z.ltb ?a ?b] => destruct (Z.ltb_spec a b)
         | |- context [Z.leb ?a ?b] => destruct (Z.leb_spec a b)
         end.

Lemma DayFromYear_step (y : Z) :
  DayFromYear (y + 1) = DayFromYear y + DaysInYear y.
Proof.
  unfold DayFromYear, DaysInYear. split_tests; simpl negb; cbv iota; div_lia.
Qed.

Lemma DaysInYear_leap (y : Z) : DaysInYear y = 365 + InLeapYear y.
Proof.
  unfold InLeapYear, DaysInYear.
  destruct (y mod 4 =? 0), (y mod 100 =? 0), (y mod 400 =? 0); reflexivity.
Qed.

Lemma InLeapYear_01 (y : Z) : InLeapYear y = 0 \/ InLeapYear y = 1.
Proof. unfold InLeapYear. destruct (DaysInYear y =? 365); auto. Qed.

Lemma DayFromYear_mono (a b : Z) : a <= b -> DayFromYear a <= DayFromYear b.
Proof. intro H. unfold DayFromYear. div_lia. Qed.

Lemma YearFromDay_spec (d : Z) :
  DayFromYear (YearFromDay d) <= d < DayFromYear (YearFromDay d + 1).
Proof.
  unfold YearFromDay.
  set (y := 1970 + 400 * d / 146097).
  destruct (Z.ltb_spec d (DayFromYear y)) as [L|L].
  - replace (y - 1 + 1) with y by lia. split; [|lia].
    unfold DayFromYear in *. subst y. div_lia.
  - destruct (Z.leb_spec (DayFromYear (y + 1)) d) as [U|U]; [|lia].
    split; [lia|]. unfold DayFromYear in *. subst y. div_lia.
Qed.

Lemma YearFromDay_unique (d y : Z) :
  DayFromYear y <= d < DayFromYear (y + 1) -> YearFromDay d = y.
Proof.
  intro H. pose proof (YearFromDay_spec d) as S.
  destruct (Z.lt_trichotomy (YearFromDay d) y) as [L|[E|G]]; [|exact E|].
  - pose proof (DayFromYear_mono (YearFromDay d + 1) y). lia.
  - pose proof (DayFromYear_mono (y + 1) (YearFromDay d)). lia.
Qed.

Lemma YearFromDay_mono (a b : Z) : a <= b -> YearFromDay a <= YearFromDay b.
Proof.
  intro H. pose proof (YearFromDay_spec a). pose proof (YearFromDay_spec b).
  destruct (Z_le_gt_dec (YearFromDay a) (YearFromDay b)); [assumption|].
  pose proof (DayFromYear_mono (YearFromDay b + 1) (YearFromDay a)). lia.
Qed.

Lemma DayWithinYear_range (d : Z) :
  0 <= DayWithinYear d < 365 + InLeapYear (YearFromDay d).
Proof.
  unfold DayWithinYear. pose proof (YearFromDay_spec d) as S.
  rewrite DayFromYear_step, DaysInYear_leap in S. lia.
Qed.

Lemma monthWithin_range (leap w : Z) : 0 <= monthWithin leap w <= 11.
Proof. unfold monthWithin. split_tests; lia. Qed.

Lemma MonthFromDay_range (d : Z) : 0 <= MonthFromDay d <= 11.
Proof. apply monthWithin_range. Qed.

Lemma monthStart_le (leap w : Z) :
  0 <= leap <= 1 -> 0 <= w < 365 + leap ->
  1 <= w - monthStart leap (monthWithin leap w) + 1 <= 31.
Proof.
  intros L W. unfold monthWithin. split_tests; table; lia.
Qed.

Lemma monthWithin_mono (leap v w : Z) :
  v <= w -> monthWithin leap v <= monthWithin leap w.
Proof. intro H. unfold monthWithin. split_tests; lia. Qed.

Lemma DateFromDay_range (d : Z) : 1 <= DateFromDay d <= 31.
Proof.
  unfold DateFromDay, MonthFromDay. apply monthStart_le.
  - destruct (InLeapYear_01 (YearFromDay d)); lia.
  - apply DayWithinYear_range.
Qed.

(** The day number is recovered from the three calendar fields. *)
Lemma MakeDay_fields (d k : Z) :
  MakeDay (YearFromDay d) (MonthFromDay d) (DateFromDay d + k) = d + k.
Proof.
  pose proof (MonthFromDay_range d) as R.
  unfold MakeDay; cbv zeta.
  rewrite (Z.div_small (MonthFromDay d) 12), (Z.mod_small (MonthFromDay d) 12) by lia.
  rewrite Z.add_0_r. unfold DateFromDay, DayWithinYear. lia.
Qed.

Lemma Day_MakeDate (d time : Z) :
  0 <= time < msPerDay -> Day (MakeDate d time) = d.
Proof.
  intro H. unfold Day, MakeDate, msPerDay in *. div_lia.
Qed.

Lemma Day_midnight (d : Z) : Day (MakeDate d 0) = d.
Proof. apply Day_MakeDate. unfold msPerDay. lia. Qed.

Lemma Day_mono (a b : Z) : a <= b -> Day a <= Day b.
Proof. intro H. unfold Day, msPerDay. div_lia. Qed.

Lemma Day_shift (t k : Z) : Day (t + k * msPerDay) = Day t + k.
Proof. unfold Day, msPerDay. div_lia. Qed.

(** [d.setDate(d.getDate() + k)] moves [d] by [k] days, whatever the
    offset of the local time. *)
Lemma setDate_shift (tza t k : Z) :
  setDate tza t (getDate tza t + k) = t + k * msPerDay.
Proof.
  unfold setDate, getDate. rewrite MakeDay_fields.
  unfold UTC, MakeDate, TimeWithinDay, Day, LocalTime, msPerDay. div_lia.
Qed.

Lemma getDate_Date_ymd (tza y m dt : Z) :
  getDate tza (Date_ymd tza y m dt) = DateFromDay (MakeDay (MakeFullYear y) m dt).
Proof.
  unfold getDate, Date_ymd, LocalTime, UTC.
  replace (MakeDate (MakeDay (MakeFullYear y) m dt) 0 - tza + tza)
    with (MakeDate (MakeDay (MakeFullYear y) m dt) 0) by lia.
  now rewrite Day_midnight.
Qed.

(** Day [w] of year [y], counted from 0. *)
Lemma YearFromDay_within (y w : Z) :
  0 <= w < 365 + InLeapYear y -> YearFromDay (DayFromYear y + w) = y.
Proof.
  intro H. apply YearFromDay_unique.
  rewrite DayFromYear_step, DaysInYear_leap. lia.
Qed.

Lemma fields_within (y w : Z) :
  0 <= w < 365 + InLeapYear y ->
  DateFromDay (DayFromYear y + w)
  = w - monthStart (InLeapYear y) (monthWithin (InLeapYear y) w) + 1.
Proof.
  intro H. unfold DateFromDay, MonthFromDay, DayWithinYear.
  rewrite YearFromDay_within by exact H.
  replace (DayFromYear y + w - DayFromYear y) with w by lia. reflexivity.
Qed.


(** Later days have later calendar dates. *)
Lemma civil_mono (a b : Z) :
  a <= b ->
  IsoDate_leb (mkIso (YearFromDay a) (MonthFromDay a + 1) (DateFromDay a))
              (mkIso (YearFromDay b) (MonthFromDay b + 1) (DateFromDay b)) = true.
Proof.
  intro H. unfold IsoDate_leb. simpl.
  pose proof (YearFromDay_mono a b H) as Y.
  destruct (Z.ltb_spec (YearFromDay a) (YearFromDay b)) as [L|L]; [reflexivity|].
  assert (E : YearFromDay a = YearFromDay b) by lia.
  rewrite (proj2 (Z.eqb_eq _ _) E). simpl.
  assert (W : DayWithinYear a <= DayWithinYear b)
    by (unfold DayWithinYear; rewrite E; lia).
  unfold DateFromDay, MonthFromDay. rewrite <- E.
  pose proof (monthWithin_mono (InLeapYear (YearFromDay a)) _ _ W) as M.
  destruct (Z.ltb_spec (monthWithin (InLeapYear (YearFromDay a)) (DayWithinYear a) + 1)
                       (monthWithin (InLeapYear (YearFromDay a)) (DayWithinYear b) + 1))
    as [L2|L2]; [reflexivity|].
  assert (E2 : monthWithin (InLeapYear (YearFromDay a)) (DayWithinYear a)
               = monthWithin (InLeapYear (YearFromDay a)) (DayWithinYear b)) by lia.
  rewrite E2, Z.eqb_refl. simpl. apply Z.leb_le. lia.
Qed.

Lemma toISODate_mono (s t : Z) :
  s <= t -> IsoDate_leb (toISODate s) (toISODate t) = true.
Proof. intro H. apply civil_mono, Day_mono, H. Qed.

(** The last day of a month is not before its first day, for any month
    number. *)
Lemma MakeDay_month_span (y m : Z) : MakeDay y m 1 <= MakeDay y (m + 1) 0.
Proof.
  unfold MakeDay; cbv zeta.
  assert (C : (m mod 12 = 11 /\ (m + 1) mod 12 = 0 /\ (m + 1) / 12 = m / 12 + 1)
              \/ (0 <= m mod 12 <= 10 /\ (m + 1) mod 12 = m mod 12 + 1
                  /\ (m + 1) / 12 = m / 12)) by div_lia.
  destruct C as [(A & B & D)|(A & B & D)]; rewrite B, D.
  - rewrite A. replace (y + (m / 12 + 1)) with (y + m / 12 + 1) by lia.
    rewrite DayFromYear_step, DaysInYear_leap. table.
    destruct (InLeapYear_01 (y + m / 12 + 1)); lia.
  - revert A. generalize (m mod 12) as n. intros n A.
    destruct (InLeapYear_01 (y + m / 12)) as [E|E]; rewrite E;
      enum n; next_month; table; lia.
Qed.

Lemma daysInMonth_range (y m : Z) : 28 <= daysInMonth y m <= 31.
Proof.
  unfold daysInMonth. destruct (InLeapYear_01 y) as [E|E]; rewrite E.
  all: destruct m as [|p|p]; try lia.
  all: repeat (destruct p as [p|p|]; try lia).
Qed.

(** The calendar fields of a day made from a valid date are that date. *)
Lemma civil_MakeDay (y m dt : Z) :
  0 <= m <= 11 -> 1 <= dt <= daysInMonth y (m + 1) ->
  YearFromDay (MakeDay y m dt) = y
  /\ MonthFromDay (MakeDay y m dt) = m
  /\ DateFromDay (MakeDay y m dt) = dt.
Proof.
  intros Hm Hd. unfold MakeDay; cbv zeta.
  rewrite (Z.div_small m 12), (Z.mod_small m 12) by lia.
  replace (y + 0) with y by lia.
  set (w := monthStart (InLeapYear y) m + dt - 1).
  replace (DayFromYear y + monthStart (InLeapYear y) m + dt - 1)
    with (DayFromYear y + w) by (subst w; lia).
  assert (K : 0 <= w < 365 + InLeapYear y
              /\ monthWithin (InLeapYear y) w = m
              /\ w - monthStart (InLeapYear y) m + 1 = dt).
  { subst w. unfold daysInMonth in Hd.
    destruct (InLeapYear_01 y) as [E|E]; rewrite E in *; enum m;
      month_len Hd; unfold monthWithin; table; split_tests; lia. }
  destruct K as (K1 & K2 & K3).
  split; [now apply YearFromDay_within|].
  split.
  - unfold MonthFromDay, DayWithinYear. rewrite YearFromDay_within by exact K1.
    replace (DayFromYear y + w - DayFromYear y) with w by lia. exact K2.
  - rewrite fields_within by exact K1. rewrite K2. exact K3.
Qed.

Lemma MakeDay_last (y m : Z) :
  0 <= m <= 11 -> MakeDay y (m + 1) 0 = MakeDay y m (daysInMonth y (m + 1)).
Proof.
  intro Hm. unfold MakeDay; cbv zeta.
  rewrite (Z.div_small m 12), (Z.mod_small m 12) by lia.
  replace (y + 0) with y by lia.
  assert (C : m = 11 \/ m <= 10) by lia. destruct C as [->|C].
  - change ((11 + 1) / 12) with 1. change ((11 + 1) mod 12) with 0.
    rewrite DayFromYear_step, DaysInYear_leap. table.
    change (daysInMonth y (11 + 1)) with 31. lia.
  - rewrite (Z.div_small (m + 1) 12), (Z.mod_small (m + 1) 12) by lia.
    replace (y + 0) with y by lia. unfold daysInMonth.
    enum m; next_month; table; lia.
Qed.

(** The UTC day of a local midnight, for a host that is not ahead of UTC. *)
Lemma Day_local_midnight (tza d : Z) :
  - msPerDay < tza <= 0 -> Day (UTC tza (MakeDate d 0)) = d.
Proof. unfold Day, UTC, MakeDate, msPerDay. intro H. div_lia. Qed.

(** The round trip through a time value gives back a date's day number. *)
Lemma dayNumber_toISODate (t : Z) : Spec.dayNumber (toISODate t) = Day t.
Proof.
  unfold Spec.dayNumber, Date_iso, toISODate. simpl.
  rewrite Day_midnight.
  replace (MonthFromDay (Day t) + 1 - 1) with (MonthFromDay (Day t)) by lia.
  pose proof (MakeDay_fields (Day t) 0) as F.
  now rewrite !Z.add_0_r in F.
Qed.

End CalendarFacts.

(* ================================================================== *)
(** * Facts about the month-name search *)

Module StrFacts.

Import Str.
Local Open Scope string_scope.

Lemma matchNoCase_lower (name s m r : string) :
  matchNoCase name s = Some (m, r) -> toLowerCase m = toLowerCase name.
Proof.
  revert s m r. induction name as [|a name IH]; intros s m r H.
  - simpl in H. injection H as <- _. reflexivity.
  - destruct s as [|b s]; simpl in H; [discriminate|].
    destruct (Ascii.eqb_spec (lowerChar a) (lowerChar b)) as [E|E]; [|discriminate].
    destruct (matchNoCase name s) as [[m' r']|] eqn:M; [|discriminate].
    injection H as <- <-. simpl. rewrite (IH _ _ _ M). now rewrite E.
Qed.

Lemma altAt_lower (names : list string) (s m : string) :
  altAt names s = Some m ->
  exists n, In n names /\ toLowerCase m = toLowerCase n.
Proof.
  induction names as [|n ns IH]; simpl; intro H; [discriminate|].
  destruct (matchNoCase n s) as [[m' r]|] eqn:M.
  - destruct (wordEnds r).
    + injection H as <-. exists n. split; [now left|].
      eapply matchNoCase_lower; eauto.
    + destruct (IH H) as (n' & I & E). exists n'. split; [now right|assumption].
  - destruct (IH H) as (n' & I & E). exists n'. split; [now right|assumption].
Qed.

Lemma monthSearch_lower (s : string) (prevWord : bool) (m : string) :
  monthSearch prevWord s = Some m ->
  exists n, In n monthNames /\ toLowerCase m = toLowerCase n.
Proof.
  revert prevWord. induction s as [|c s IH]; intros prevWord H; [discriminate|].
  cbn [monthSearch] in H.
  destruct (if prevWord then None else altAt monthNames (String c s)) as [m'|] eqn:A.
  - injection H as <-. destruct prevWord; [discriminate|].
    now apply altAt_lower in A.
  - eapply IH; eauto.
Qed.


End StrFacts.

(* ================================================================== *)
(** * The period resolver *)

Module PeriodFacts.

Import JsDate Period CalendarFacts.
Local Open Scope Z_scope.

Lemma plainYear_full (y : Z) : Spec.plainYear y -> MakeFullYear y = y.
Proof.
  unfold Spec.plainYear, MakeFullYear. intro H.
  destruct (Z.leb_spec 0 y), (Z.leb_spec y 99); simpl; lia.
Qed.

Lemma ordered_same_month (y m d : Z) :
  1 <= d -> Spec.ordered (mkPeriod (mkIso y m 1) (mkIso y m d)).
Proof.
  intro H. unfold Spec.ordered, IsoDate_leb. simpl.
  rewrite !Z.eqb_refl. simpl. rewrite (proj2 (Z.leb_le 1 d) H).
  now rewrite !orb_true_r.
Qed.

Lemma ordered_same_day (a : IsoDate) : Spec.ordered (mkPeriod a a).
Proof.
  unfold Spec.ordered, IsoDate_leb. simpl.
  rewrite !Z.eqb_refl, Z.leb_refl. simpl. now rewrite !orb_true_r.
Qed.

Lemma getMonthRange_ordered (tza now : Z) (monthOffset : Z) :
  Spec.ordered (getMonthRange tza now monthOffset).
Proof.
  unfold Spec.ordered, getMonthRange. simpl.
  apply toISODate_mono. unfold Date_ymd, UTC, MakeDate.
  pose proof (MakeDay_month_span (MakeFullYear (getFullYear tza now))
                                 (getMonth tza now + monthOffset)).
  unfold msPerDay. lia.
Qed.

Lemma fallbackPeriod_ordered (tza now : Z) (query : string) :
  Spec.ordered (fallbackPeriod tza now query).
Proof.
  unfold fallbackPeriod.
  repeat match goal with |- context [if ?b then _ else _] => destruct b end;
    apply getMonthRange_ordered.
Qed.

Lemma fallbackPeriod_default (tza now : Z) (query : string) :
  Str.includes (Str.toLowerCase query) "last month" = false ->
  Str.includes (Str.toLowerCase query) "previous month" = false ->
  fallbackPeriod tza now query = getMonthRange tza now 0.
Proof.
  intros A B. unfold fallbackPeriod. rewrite A, B.
  destruct (_ || _); reflexivity.
Qed.

Lemma previousPeriod_shift (tza : Z) (startDate endDate : IsoDate) :
  previousPeriod tza startDate endDate
  = let daysDiff := Spec.dayNumber endDate - Spec.dayNumber startDate in
    mkPeriod (toISODate (Date_iso startDate - daysDiff * msPerDay))
             (toISODate (Date_iso startDate - msPerDay)).
Proof.
  unfold previousPeriod. cbv zeta.
  replace (getDate tza (Date_iso startDate) - 1)
    with (getDate tza (Date_iso startDate) + (-1)) by lia.
  rewrite setDate_shift.
  set (prevEnd := Date_iso startDate + -1 * msPerDay).
  set (daysDiff := Num.ceil_div _ _).
  replace (getDate tza prevEnd - daysDiff + 1)
    with (getDate tza prevEnd + (1 - daysDiff)) by lia.
  rewrite setDate_shift.
  assert (D : daysDiff = Spec.dayNumber endDate - Spec.dayNumber startDate).
  { unfold daysDiff, Num.ceil_div, Spec.dayNumber, Date_iso.
    rewrite !Day_midnight. unfold MakeDate, msPerDay. div_lia. }
  rewrite <- D. subst prevEnd. f_equal; f_equal; lia.
Qed.

Lemma getMonthRange_current (tza now : Z) :
  - msPerDay < tza <= 0 ->
  Spec.plainYear (getFullYear tza now) ->
  getMonthRange tza now 0
  = Spec.wholeMonth (getFullYear tza now) (getMonth tza now + 1).
Proof.
  intros West P. unfold getMonthRange, Spec.wholeMonth, toISODate, Date_ymd.
  rewrite !Day_local_midnight by exact West.
  rewrite (plainYear_full _ P), Z.add_0_r.
  pose proof (MonthFromDay_range (Day (LocalTime tza now))) as R.
  fold (getMonth tza now) in R.
  rewrite MakeDay_last by exact R.
  pose proof (daysInMonth_range (getFullYear tza now) (getMonth tza now + 1)) as L.
  destruct (civil_MakeDay (getFullYear tza now) (getMonth tza now) 1)
    as (Y1 & M1 & D1); [exact R|lia|].
  destruct (civil_MakeDay (getFullYear tza now) (getMonth tza now)
                          (daysInMonth (getFullYear tza now) (getMonth tza now + 1)))
    as (Y2 & M2 & D2); [exact R|lia|].
  now rewrite Y1, M1, D1, Y2, M2, D2.
Qed.


Section Resolver.

Variable tza : Z.
Variable chrono_parse : string -> Z -> list Chrono.ParsedResult.
Variable now : Z.

Lemma generalPeriod_ordered (query : string) :
  Spec.ordered (generalPeriod tza chrono_parse now query).
Proof.
  unfold generalPeriod.
  destruct (chrono_parse query now) as [|span rest];
    [apply fallbackPeriod_ordered|].
  destruct (truthy _ && truthy _ && negb _).
  - apply ordered_same_month. rewrite getDate_Date_ymd.
    apply DateFromDay_range.
  - destruct (Chrono.isCertain_day _).
    + apply ordered_same_day.
    + apply fallbackPeriod_ordered.
Qed.




Lemma generalPeriod_no_parse (query : string) :
  chrono_parse query now = [] ->
  generalPeriod tza chrono_parse now query = fallbackPeriod tza now query.
Proof. intro P. unfold generalPeriod. now rewrite P. Qed.


(** What holds of the resolver on every host: for every query and
    reference instant it returns one period, whose start is not after its
    end; when the shortcut does not apply, the parser finds nothing (or
    its first result has no certain day and lacks a year or a month) and
    the query does not mention the last or previous month, that period is
    [getMonthRange(0)], which is the current calendar month on a host
    whose local time is not ahead of UTC. *)
Lemma resolution_total_ordered (query : string) :
  (exists p, extractPeriodFromQuery tza chrono_parse now query = p
             /\ Spec.ordered p)
  /\ ((Str.hasYearToken query = true \/ Str.monthOnlyMatch query = None) ->
      (chrono_parse query now = []
       \/ exists span rest,
          chrono_parse query now = span :: rest
          /\ Chrono.isCertain_day (Chrono.start span) = false
          /\ truthy (Chrono.get_year (Chrono.start span))
             && truthy (Chrono.get_month (Chrono.start span)) = false) ->
      Str.includes (Str.toLowerCase query) "last month" = false ->
      Str.includes (Str.toLowerCase query) "previous month" = false ->
      extractPeriodFromQuery tza chrono_parse now query = getMonthRange tza now 0)
  /\ (- msPerDay < tza <= 0 ->
      Spec.plainYear (getFullYear tza now) ->
      getMonthRange tza now 0
      = Spec.wholeMonth (getFullYear tza now) (getMonth tza now + 1)).
Proof.
  split; [|split].
  - eexists. split; [reflexivity|].
    unfold extractPeriodFromQuery.
    destruct (if negb (Str.hasYearToken query)
              then Str.monthOnlyMatch query else None) as [name|].
    + apply ordered_same_month. rewrite getDate_Date_ymd.
      apply DateFromDay_range.
    + apply generalPeriod_ordered.
  - intros S P A B.
    assert (G : extractPeriodFromQuery tza chrono_parse now query
                = generalPeriod tza chrono_parse now query).
    { unfold extractPeriodFromQuery.
      destruct S as [S|S]; rewrite S; [reflexivity|].
      destruct (negb _); reflexivity. }
    assert (F : generalPeriod tza chrono_parse now query
                = fallbackPeriod tza now query).
    { destruct P as [P|(span & rest & P & C & T)].
      - now apply generalPeriod_no_parse.
      - unfold generalPeriod. rewrite P, C, T. reflexivity. }
    rewrite G, F. now apply fallbackPeriod_default.
  - apply getMonthRange_current.
Qed.

End Resolver.

Example year_token_adjacent : Str.hasYearToken "May 2025" = true.
Proof. reflexivity. Qed.

Example year_token_apart : Str.hasYearToken "costs in May, fiscal year 2025" = true.
Proof. reflexivity. Qed.

Example year_token_needs_boundaries :
  Str.hasYearToken "invoice 12345 for May" = false
  /\ Str.hasYearToken "build v2025a in May" = false.
Proof. split; reflexivity. Qed.

Example month_is_a_word :
  Str.monthOnlyMatch "maybe next week" = None
  /\ Str.monthOnlyMatch "what about MAY?" = Some "MAY"%string
  /\ Str.monthOnlyMatch "from march to may" = Some "march"%string.
Proof. repeat split; reflexivity. Qed.

(** The reference instant of the examples: 2025-08-15, 03:00 UTC. *)
Lemma example_now : toISODate 1755226800000 = mkIso 2025 8 15.
Proof. reflexivity. Qed.


Lemma resolution_total_ordered_witness :
  extractPeriodFromQuery 0 (fun _ _ => []) 1755226800000 "what is our AWS bill"
  = Spec.wholeMonth 2025 8.
Proof.
  pose proof (resolution_total_ordered 0 (fun _ _ => []) 1755226800000
                                       "what is our AWS bill") as (_ & F & C).
  rewrite F; [|right; reflexivity|left; reflexivity|reflexivity|reflexivity].
  rewrite C; [reflexivity|unfold msPerDay; lia|].
  unfold Spec.plainYear. change (getFullYear 0 1755226800000) with 2025. lia.
Defined.

(** For a host ahead of UTC the two ends of [getMonthRange] are one day
    early: here the host is at UTC+9. *)
Lemma getMonthRange_east_of_UTC :
  getMonthRange 32400000 1755226800000 0
  = mkPeriod (mkIso 2025 7 31) (mkIso 2025 8 30).
Proof. reflexivity. Qed.

(** C8 (the code at the failing input). On a host at UTC+9, at 03:00 UTC
    on 2025-08-15 (the local date is 2025-08-15 too), a query that nothing
    matches resolves to {2025-07-31, 2025-08-30} and not to the current
    calendar month {2025-08-01, 2025-08-31}; so it does at UTC+1. On the
    same host the month-only shortcut gives August in full. *)
Theorem default_period_ahead_of_UTC :
  extractPeriodFromQuery 32400000 (fun _ _ => []) 1755226800000
                         "what is our AWS bill"
  = mkPeriod (mkIso 2025 7 31) (mkIso 2025 8 30)
  /\ extractPeriodFromQuery 3600000 (fun _ _ => []) 1755226800000
                            "what is our AWS bill"
     = mkPeriod (mkIso 2025 7 31) (mkIso 2025 8 30)
  /\ mkIso (getFullYear 32400000 1755226800000)
           (getMonth 32400000 1755226800000 + 1)
           (getDate 32400000 1755226800000)
     = mkIso 2025 8 15
  /\ Spec.wholeMonth 2025 8 = mkPeriod (mkIso 2025 8 1) (mkIso 2025 8 31)
  /\ extractPeriodFromQuery 32400000 (fun _ _ => []) 1755226800000 "August"
     = Spec.wholeMonth 2025 8.
Proof. repeat split; reflexivity. Qed.

Example rendered_period :
  isoString (start (Spec.wholeMonth 2025 5)) = "2025-05-01"%string
  /\ isoString (end_ (Spec.wholeMonth 2025 5)) = "2025-05-31"%string.
Proof. split; reflexivity. Qed.

Example february_in_leap_year :
  extractPeriodFromQuery (-18000000) (fun _ _ => []) 1709300000000 "February"
  = mkPeriod (mkIso 2024 2 1) (mkIso 2024 2 29).
Proof. reflexivity. Qed.

Example last_month_fallback :
  extractPeriodFromQuery 0 (fun _ _ => []) 1755226800000 "spend of the previous month"
  = mkPeriod (mkIso 2025 7 1) (mkIso 2025 7 31).
Proof. reflexivity. Qed.

Example single_day_parse :
  extractPeriodFromQuery 0
    (fun _ _ => [Chrono.mkResult
                   (Chrono.mkComponents (Some 2025) (Some 8) (Some 8) true
                                        1754654400000)])
    1755226800000 "last Friday"
  = mkPeriod (mkIso 2025 8 8) (mkIso 2025 8 8).
Proof. reflexivity. Qed.

(** The window of [fetchPreviousPeriodData] ends the day before the current
    period starts and is one day shorter than the current period. *)
Lemma previousPeriod_days (tza : Z) (startDate endDate : IsoDate) :
  Spec.dayNumber (end_ (previousPeriod tza startDate endDate))
  = Spec.dayNumber startDate - 1
  /\ Spec.dayNumber (start (previousPeriod tza startDate endDate))
     = Spec.dayNumber (end_ (previousPeriod tza startDate endDate))
       - (daysInclusive startDate endDate - 1) + 1.
Proof.
  rewrite previousPeriod_shift. cbv zeta. simpl start. simpl end_.
  rewrite !dayNumber_toISODate. unfold daysInclusive.
  fold (Spec.dayNumber startDate). fold (Spec.dayNumber endDate).
  replace (Date_iso startDate - msPerDay)
    with (Date_iso startDate + (-1) * msPerDay) by lia.
  replace (Date_iso startDate
           - (Spec.dayNumber endDate - Spec.dayNumber startDate) * msPerDay)
    with (Date_iso startDate
          + (- (Spec.dayNumber endDate - Spec.dayNumber startDate)) * msPerDay)
    by lia.
  rewrite !Day_shift. fold (Spec.dayNumber startDate). lia.
Qed.

(** C3 (the code at the failing inputs). For the single day 2025-05-10 the
    previous period requested is {2025-05-10, 2025-05-09}: it starts on the
    current day and ends the day before. For June 2025 (30 days) it is
    {2025-05-03, 2025-05-31} (29 days). *)
Theorem previousPeriod_one_day_short (tza : Z) :
  previousPeriod tza (mkIso 2025 5 10) (mkIso 2025 5 10)
  = mkPeriod (mkIso 2025 5 10) (mkIso 2025 5 9)
  /\ previousPeriod tza (mkIso 2025 6 1) (mkIso 2025 6 30)
     = mkPeriod (mkIso 2025 5 3) (mkIso 2025 5 31)
  /\ daysInclusive (mkIso 2025 6 1) (mkIso 2025 6 30) = 30
  /\ daysInclusive (mkIso 2025 5 3) (mkIso 2025 5 31) = 29.
Proof.
  rewrite !previousPeriod_shift. repeat split; reflexivity.
Qed.

End PeriodFacts.

(* ================================================================== *)
(** * Ranking and the summary *)

Module ReportFacts.

Import Num CostCalc Types Report NumFacts.
Local Open Scope Q_scope.

Lemma insertSorted_perm {A : Type} (cmp : A -> A -> Q) (x : A) (l : list A) :
  Permutation (x :: l) (insertSorted cmp x l).
Proof.
  induction l as [|y r IH]; simpl; [reflexivity|].
  destruct (Qle_bool (cmp x y) 0); [reflexivity|].
  rewrite perm_swap. now apply perm_skip.
Qed.

Lemma sort_perm {A : Type} (cmp : A -> A -> Q) (l : list A) :
  Permutation l (sort cmp l).
Proof.
  induction l as [|x l IH]; simpl; [reflexivity|].
  rewrite <- insertSorted_perm. now apply perm_skip.
Qed.

Lemma costGe_trans (a b c : ServiceCostData) :
  Spec.costGe a b -> Spec.costGe b c -> Spec.costGe a c.
Proof. unfold Spec.costGe. intros. lra. Qed.

Lemma insertSorted_desc (x : ServiceCostData) (l : list ServiceCostData) :
  Spec.DescByCost l -> Spec.DescByCost (insertSorted byCostDesc x l).
Proof.
  unfold Spec.DescByCost.
  induction l as [|y r IH]; intro S; simpl.
  - constructor; constructor.
  - inversion S as [|? ? Sr Fy]; subst.
    destruct (Qle_bool (byCostDesc x y) 0) eqn:E.
    + apply Qle_bool_iff in E. unfold byCostDesc in E.
      assert (G : Spec.costGe x y) by (unfold Spec.costGe; lra).
      constructor; [assumption|]. constructor; [assumption|].
      eapply Forall_impl; [|exact Fy]. intros z Hz. eapply costGe_trans; eauto.
    + assert (G : Spec.costGe y x).
      { unfold Spec.costGe. unfold byCostDesc in E.
        destruct (Qlt_le_dec 0 (cost y - cost x)) as [L|L]; [lra|].
        apply Qle_bool_iff in L. congruence. }
      constructor; [now apply IH|].
      eapply Permutation_Forall; [apply insertSorted_perm|].
      constructor; assumption.
Qed.

Lemma sort_desc (l : list ServiceCostData) :
  Spec.DescByCost (sort byCostDesc l).
Proof.
  induction l as [|x l IH]; simpl; [constructor|].
  now apply insertSorted_desc.
Qed.

Section Rendering.

Variable tza : Z.
Variable Intl_format : string -> string -> Q -> string.
Variable Number_toString : Q -> string.

Lemma summary_without_change (N : nat) (data : ProcessedCostData) :
  falsy (monthOverMonth (trends data)) = true ->
  generateCostSummaryTop tza Intl_format Number_toString N data
  = (shortSummary tza Intl_format data, services data).
Proof. intro H. unfold generateCostSummaryTop. now rewrite H. Qed.

Lemma summary_with_change (N : nat) (data : ProcessedCostData) (change : Q) :
  monthOverMonth (trends data) = Some change ->
  ~ change == 0 ->
  generateCostSummaryTop tza Intl_format Number_toString N data
  = (fullSummary tza Intl_format Number_toString data change
                 (firstn N (sort byCostDesc (services data))),
     sort byCostDesc (services data)).
Proof.
  intros M C. unfold generateCostSummaryTop. rewrite M. simpl falsy.
  apply eqb_false in C. rewrite C. reflexivity.
Qed.

Lemma summary_short_iff_falsy (N : nat) (data : ProcessedCostData) :
  snd (generateCostSummaryTop tza Intl_format Number_toString N data)
  = (if falsy (monthOverMonth (trends data)) then services data
     else sort byCostDesc (services data))
  /\ (falsy (monthOverMonth (trends data)) = true
      <-> (monthOverMonth (trends data) = None
           \/ exists c, monthOverMonth (trends data) = Some c /\ c == 0)).
Proof.
  split.
  - unfold generateCostSummaryTop.
    destruct (falsy (monthOverMonth (trends data))); reflexivity.
  - destruct (monthOverMonth (trends data)) as [c|]; simpl; split.
    + intro H. right. exists c. split; [reflexivity|now apply eqb_true].
    + intros [H|(c' & H & Z)]; [discriminate|]. injection H as <-.
      now apply eqb_true.
    + auto.
    + auto.
Qed.

(** C9 (the code at the failing input). A change of exactly 0 is
    available, and the summary has the total and the period only: no
    change figure, no trend word, no top services; the array is left as
    it was. *)
Theorem summary_drops_zero_change
        (N : nat) (period : Period.Period) (totalCost : Q) (currency : string)
        (services : list ServiceCostData) (t : Trend) :
  generateCostSummaryTop tza Intl_format Number_toString N
    (mkData period totalCost currency services (mkTrends (Some 0) t) "")
  = (shortSummary tza Intl_format
       (mkData period totalCost currency services (mkTrends (Some 0) t) ""),
     services).
Proof. reflexivity. Qed.

(** C10. [getTopServices] leaves the caller's array in descending order
    by cost, a rearrangement of what it held, and returns its first
    [topN] entries; the order changes for some input; so
    [generateCostOptimizationSuggestions], and [generateCostSummary] when
    it lists the top services, leave the array they were given sorted. *)
Theorem getTopServices_sorts_in_place :
  (forall services topN,
      Spec.DescByCost (snd (getTopServices services topN))
      /\ Permutation services (snd (getTopServices services topN))
      /\ fst (getTopServices services topN)
         = firstn (dflt 10%nat topN) (snd (getTopServices services topN)))
  /\ (exists services topN, snd (getTopServices services topN) <> services)
  /\ (forall services threshold,
         snd (generateCostOptimizationSuggestions Intl_format services threshold)
         = snd (getTopServices services (Some 5%nat)))
  /\ (forall data,
         falsy (monthOverMonth (trends data)) = false ->
         snd (generateCostSummary tza Intl_format Number_toString data)
         = snd (getTopServices (services data) (Some 3%nat)))
  /\ (exists services threshold,
         snd (generateCostOptimizationSuggestions Intl_format services threshold)
         <> services)
  /\ (exists data,
         snd (generateCostSummary tza Intl_format Number_toString data)
         <> services data).
Proof.
  split; [|split; [|split; [|split; [|split]]]].
  - intros services topN. unfold getTopServices. simpl.
    split; [apply sort_desc|]. split; [apply sort_perm|reflexivity].
  - exists [mkService "S3" 1 0 None; mkService "EC2" 2 0 None], None.
    discriminate.
  - intros services threshold. reflexivity.
  - intros data F. unfold generateCostSummary, generateCostSummaryTop.
    rewrite F. reflexivity.
  - exists [mkService "S3" 1 0 None; mkService "EC2" 2 0 None], None.
    discriminate.
  - exists (mkData (Period.mkPeriod (JsDate.mkIso 2025 5 1) (JsDate.mkIso 2025 5 31))
                   3 "USD"
                   [mkService "S3" 1 0 None; mkService "EC2" 2 0 None]
                   (mkTrends (Some 50) increasing) "").
    discriminate.
Qed.

End Rendering.

Lemma getTopServices_sorts_in_place_witness :
  snd (generateCostSummary 0 (fun _ _ _ => EmptyString) (fun _ => EmptyString)
         (mkData (Period.mkPeriod (JsDate.mkIso 2025 5 1) (JsDate.mkIso 2025 5 31))
                 3 "USD"
                 [mkService "S3" 1 0 None; mkService "EC2" 2 0 None]
                 (mkTrends (Some 50) increasing) ""))
  = [mkService "EC2" 2 0 None; mkService "S3" 1 0 None].
Proof.
  rewrite (proj1 (proj2 (proj2 (proj2
            (getTopServices_sorts_in_place 0 (fun _ _ _ => EmptyString)
                                           (fun _ => EmptyString)))))).
  - reflexivity.
  - reflexivity.
Defined.

End ReportFacts.

(* ================================================================== *)
(** * Totals and shares *)

Module FetcherFacts.

Import Num CostCalc Types Report Fetcher NumFacts.
Local Open Scope Q_scope.

Lemma sumGroups_from (groups : list Group) (a : Q) :
  fold_left (fun total group => total + amountOf (Metrics group)) groups a
  == a + sumGroups groups.
Proof.
  unfold sumGroups. revert a. induction groups as [|g gs IH]; intro a; simpl.
  - ring.
  - rewrite (IH (a + amountOf (Metrics g))), (IH (0 + amountOf (Metrics g))). ring.
Qed.

Lemma sumGroups_cons (g : Group) (gs : list Group) :
  sumGroups (g :: gs) == amountOf (Metrics g) + sumGroups gs.
Proof.
  unfold sumGroups at 1. simpl. rewrite sumGroups_from. ring.
Qed.

Lemma sumCosts_perm (l l' : list ServiceCostData) :
  Permutation l l' -> sumCosts l == sumCosts l'.
Proof.
  induction 1 as [|x l l' P IH|x y l|l l' l'' P1 IH1 P2 IH2]; simpl.
  - reflexivity.
  - now rewrite IH.
  - ring.
  - now rewrite IH1.
Qed.


(** The services as the loop over the groups builds them, shares filled in. *)
Lemma sumCosts_built (prev : option ResultByTime) (total : Q) (groups : list Group) :
  sumCosts (map (withPercentage total) (map (serviceOf prev) groups))
  == sumGroups groups.
Proof.
  induction groups as [|g gs IH]; simpl.
  - reflexivity.
  - rewrite IH, sumGroups_cons. reflexivity.
Qed.



Lemma totalCostOf_positive (r : option ResultByTime) :
  0 < amountOf (totalOf r) -> totalCostOf r = amountOf (totalOf r).
Proof. intro H. unfold totalCostOf. apply gtb_true in H. now rewrite H. Qed.

Lemma totalCostOf_recomputed (r : option ResultByTime) :
  amountOf (totalOf r) <= 0 ->
  totalCostOf r = sumGroups (dflt [] (groupsOf r)).
Proof. intro H. unfold totalCostOf. apply gtb_false in H. now rewrite H. Qed.

Lemma previousTotalCostOf_zero (r : option ResultByTime) (groups : list Group) :
  amountOf (totalOf r) == 0 -> groupsOf r = Some groups ->
  previousTotalCostOf r = sumGroups groups.
Proof.
  intros H G. unfold previousTotalCostOf. rewrite G.
  apply eqb_true in H. now rewrite H.
Qed.

Lemma previousTotalCostOf_nonzero (r : option ResultByTime) :
  ~ amountOf (totalOf r) == 0 -> previousTotalCostOf r = amountOf (totalOf r).
Proof.
  intro H. unfold previousTotalCostOf. apply eqb_false in H.
  destruct (groupsOf r); [now rewrite H|reflexivity].
Qed.

Section Analysis.

Variable tza : Z.
Variable Intl_format : string -> string -> Q -> string.
Variable Number_toString : Q -> string.

Lemma result_total (currentData previousData : CostExplorerResponse)
      (period : Period.Period) :
  totalCost (processAndAnalyzeCostData tza Intl_format Number_toString
               currentData previousData period)
  = totalCostOf (hd_error (ResultsByTime currentData)).
Proof.
  unfold processAndAnalyzeCostData. cbv zeta.
  destruct (generateCostSummary _ _ _ _). reflexivity.
Qed.

Lemma result_services (currentData previousData : CostExplorerResponse)
      (period : Period.Period) :
  Permutation
    (map (withPercentage (totalCostOf (hd_error (ResultsByTime currentData))))
         (map (serviceOf (hd_error (ResultsByTime previousData)))
              (dflt [] (groupsOf (hd_error (ResultsByTime currentData))))))
    (services (processAndAnalyzeCostData tza Intl_format Number_toString
                 currentData previousData period)).
Proof.
  unfold processAndAnalyzeCostData. cbv zeta.
  unfold generateCostSummary, generateCostSummaryTop. cbn [trends monthOverMonth].
  match goal with |- context [falsy ?x] => destruct (falsy x) end;
    cbn [services getTopServices fst snd].
  - apply (ReportFacts.sort_perm byCostDesc).
  - etransitivity; [apply (ReportFacts.sort_perm byCostDesc)|apply (ReportFacts.sort_perm byCostDesc)].
Qed.


(** C4 (the code at the failing inputs). A declared total of -5 is not
    zero, yet for the current period the total becomes the sum of the
    groups (10 with one group of 10, 0 with no group), while the same
    report as previous period keeps -5. *)
Theorem negative_total_replaced (period : Period.Period) :
  let withGroup :=
    mkResultByTime (Some (mkMetric (-5) "USD"))
                   (Some [mkGroup ["Amazon Simple Storage Service"%string]
                                  (Some (mkMetric 10 "USD"))]) in
  let noGroup := mkResultByTime (Some (mkMetric (-5) "USD")) (Some []) in
  totalCost (processAndAnalyzeCostData tza Intl_format Number_toString
               (mkResponse [withGroup]) (mkResponse []) period) == 10
  /\ totalCost (processAndAnalyzeCostData tza Intl_format Number_toString
                  (mkResponse [noGroup]) (mkResponse []) period) == 0
  /\ previousTotalCostOf (Some withGroup) == -5
  /\ previousTotalCostOf (Some noGroup) == -5.
Proof.
  cbv zeta. rewrite !result_total. repeat split; reflexivity.
Qed.

(** The scenario of the reconciliation rule: a declared total of 0 with
    groups of 100 and 23.45 gives 123.45, for either period. *)
Lemma zero_total_recomputed (period : Period.Period) :
  let report :=
    mkResultByTime (Some (mkMetric 0 "USD"))
                   (Some [mkGroup ["Amazon Simple Storage Service"%string]
                                  (Some (mkMetric 100 "USD"));
                          mkGroup ["Amazon Relational Database Service"%string]
                                  (Some (mkMetric (2345 # 100) "USD"))]) in
  totalCost (processAndAnalyzeCostData tza Intl_format Number_toString
               (mkResponse [report]) (mkResponse []) period) == 12345 # 100
  /\ previousTotalCostOf (Some report) == 12345 # 100.
Proof.
  cbv zeta. rewrite !result_total. split; reflexivity.
Qed.

End Analysis.



End FetcherFacts.

(* ================================================================== *)
(** * Classification of errors *)

Module ErrorsFacts.

Import Errors.
Local Open Scope string_scope.

Ltac by_signature :=
  repeat match goal with
         | |- context [Str.includes ?m ?p] =>
             destruct (Str.includes m p); cbn [orb];
             try (repeat split; first [reflexivity | intro; discriminate])
         end.

(** On a message, [handleAWSError] is the table of signatures read in
    order, with three suggestions for every class. *)
Lemma classified (msg : string) (error : Caught) :
  messageOf error = Some msg ->
  errorType (handleAWSError error)
  = AWSErrorType_toString (Spec.classify Spec.signatures msg)
  /\ retryable (handleAWSError error)
     = Spec.retryableClass (Spec.classify Spec.signatures msg)
  /\ List.length (suggestions (handleAWSError error)) = 3%nat
  /\ success (handleAWSError error) = false
  /\ (Spec.classify Spec.signatures msg = AUTHORIZATION ->
      suggestions (handleAWSError error) = Spec.authorizationAdvice).
Proof.
  intro M.
  destruct error as [|n m|s]; [discriminate| |]; injection M as M;
    cbv beta iota zeta delta [handleAWSError]; rewrite M;
    unfold anyIncluded, Spec.signatures; cbn [existsb Spec.classify];
    by_signature.
Qed.

Lemma retryable_classes (c : AWSErrorType) :
  Spec.retryableClass c = true
  <-> (AWSErrorType_toString c = "THROTTLING"
       \/ AWSErrorType_toString c = "SERVICE_UNAVAILABLE"
       \/ AWSErrorType_toString c = "UNKNOWN").
Proof.
  destruct c; simpl; split; intro H; auto; try discriminate;
    destruct H as [H|[H|H]]; discriminate.
Qed.

Lemma classify_none (table : list (string * AWSErrorType)) (msg : string) :
  (forall p c, In (p, c) table -> Str.includes msg p = false) ->
  Spec.classify table msg = UNKNOWN.
Proof.
  induction table as [|[p c] rest IH]; intro H; simpl; [reflexivity|].
  rewrite (H p c) by now left. apply IH. intros q d I. apply (H q d). now right.
Qed.

(** C7 (amended). [handleAWSError] always returns a structured response.
    A falsy error is classified UNKNOWN with no suggestion and is not
    retryable. Any other error is classified by the first signature, in
    the order of the table, that its message includes, UNKNOWN when there
    is none; it is retryable exactly in the classes THROTTLING,
    SERVICE_UNAVAILABLE and UNKNOWN and carries three suggestions; a message
    that includes 'AccessDenied' and none of the three authentication
    signatures is AUTHORIZATION, not retryable, with the three fixed
    suggestions of that class. *)
Theorem error_classification_rule (error : Caught) :
  success (handleAWSError error) = false
  /\ (error = Falsy ->
      errorType (handleAWSError error) = "UNKNOWN"
      /\ retryable (handleAWSError error) = false
      /\ suggestions (handleAWSError error) = [])
  /\ (forall msg,
         messageOf error = Some msg ->
         errorType (handleAWSError error)
         = AWSErrorType_toString (Spec.classify Spec.signatures msg)
         /\ (retryable (handleAWSError error) = true
             <-> (errorType (handleAWSError error) = "THROTTLING"
                  \/ errorType (handleAWSError error) = "SERVICE_UNAVAILABLE"
                  \/ errorType (handleAWSError error) = "UNKNOWN"))
         /\ List.length (suggestions (handleAWSError error)) = 3%nat
         /\ ((forall p c, In (p, c) Spec.signatures -> Str.includes msg p = false) ->
             errorType (handleAWSError error) = "UNKNOWN"
             /\ retryable (handleAWSError error) = true)
         /\ (Str.includes msg "AccessDenied" = true ->
             Str.includes msg "The security token included in the request is invalid"
             = false ->
             Str.includes msg "SignatureDoesNotMatch" = false ->
             Str.includes msg "InvalidAccessKeyId" = false ->
             errorType (handleAWSError error) = "AUTHORIZATION"
             /\ retryable (handleAWSError error) = false
             /\ suggestions (handleAWSError error) = Spec.authorizationAdvice)).
Proof.
  split; [|split].
  - destruct error as [|n m|s]; [reflexivity| |].
    + now destruct (classified _ (ErrorObject n m) eq_refl) as (_ & _ & _ & S & _).
    + now destruct (classified _ (Thrown s) eq_refl) as (_ & _ & _ & S & _).
  - intros ->. repeat split.
  - intros msg M.
    destruct (classified msg error M) as (T & R & L & _ & A).
    split; [exact T|]. split; [|split; [exact L|split]].
    + rewrite R, T. apply retryable_classes.
    + intro N. rewrite T, R, (classify_none _ _ N). split; reflexivity.
    + intros D N1 N2 N3.
      assert (C : Spec.classify Spec.signatures msg = AUTHORIZATION).
      { unfold Spec.signatures. cbn [Spec.classify]. rewrite N1, N2, N3, D.
        destruct (Str.includes msg "UnauthorizedOperation"); reflexivity. }
      rewrite T, R, C. repeat split. now apply A.
Qed.

Lemma error_classification_rule_witness :
  errorType (handleAWSError Falsy) = "UNKNOWN"
  /\ (errorType (handleAWSError
                   (ErrorObject "AccessDeniedException"
                      "User is not authorized: AccessDenied"))
      = "AUTHORIZATION"
      /\ retryable (handleAWSError
                      (ErrorObject "AccessDeniedException"
                         "User is not authorized: AccessDenied"))
         = false
      /\ suggestions (handleAWSError
                        (ErrorObject "AccessDeniedException"
                           "User is not authorized: AccessDenied"))
         = Spec.authorizationAdvice)
  /\ (errorType (handleAWSError (Thrown "socket hang up")) = "UNKNOWN"
      /\ retryable (handleAWSError (Thrown "socket hang up")) = true).
Proof.
  split; [|split].
  - apply (proj1 (proj2 (error_classification_rule Falsy))). reflexivity.
  - apply (proj2 (proj2 (error_classification_rule
                           (ErrorObject "AccessDeniedException"
                              "User is not authorized: AccessDenied")))
             "User is not authorized: AccessDenied"); reflexivity.
  - apply (proj2 (proj2 (error_classification_rule (Thrown "socket hang up")))
             "socket hang up"); [reflexivity|].
    intros p c I. simpl in I.
    repeat (destruct I as [I|I]; [injection I as <- <-; reflexivity|]).
    contradiction.
Defined.

(** C7, as stated, fails: a null error is classified UNKNOWN and is not
    retryable. *)
Lemma unknown_not_retryable_counterexample :
  errorType (handleAWSError Falsy) = "UNKNOWN"
  /\ retryable (handleAWSError Falsy) = false.
Proof. split; reflexivity. Qed.

End ErrorsFacts.

(* ================================================================== *)
(** * Further facts about amounts, shares and trends *)

Module AmountFacts.

Import Num CostCalc NumFacts.
Local Open Scope Q_scope.








Lemma change_scaled (current previous : Q) :
  0 < previous ->
  (current - previous) / previous * 100 * 100
  == 10000 * (current - previous) / previous.
Proof. intro H. field. lra. Qed.



End AmountFacts.

(* ================================================================== *)
(** * Further facts about ranking and suggestions *)

Module RankingFacts.

Import Num CostCalc Types Report NumFacts ReportFacts.
Local Open Scope Q_scope.

Lemma costing_insert (c : Q) (x : ServiceCostData) (l : list ServiceCostData) :
  Props.costing c (insertSorted byCostDesc x l) = Props.costing c (x :: l).
Proof.
  unfold Props.costing.
  induction l as [|y r IH]; [reflexivity|].
  cbn [insertSorted]. destruct (Qle_bool (byCostDesc x y) 0) eqn:E; [reflexivity|].
  cbn [filter] in *. rewrite IH.
  destruct (Qeq_bool (cost x) c) eqn:X; [|reflexivity].
  destruct (Qeq_bool (cost y) c) eqn:Y; [|reflexivity].
  apply Qeq_bool_iff in X, Y.
  assert (L : byCostDesc x y <= 0) by (unfold byCostDesc; lra).
  apply Qle_bool_iff in L. congruence.
Qed.

(** X4. The sort of the services is stable: the services of any one cost
    stand in the sorted array in the order they had before. *)
Theorem sort_keeps_ties_in_order (c : Q) (l : list ServiceCostData) :
  Props.costing c (sort byCostDesc l) = Props.costing c l.
Proof.
  induction l as [|x l IH]; [reflexivity|].
  cbn [sort fold_right]. fold (sort byCostDesc l).
  rewrite costing_insert. unfold Props.costing in *. cbn [filter].
  now rewrite IH.
Qed.

Lemma sort_of_sorted (l : list ServiceCostData) :
  Spec.DescByCost l -> sort byCostDesc l = l.
Proof.
  unfold Spec.DescByCost. induction 1 as [|x l S IH F]; [reflexivity|].
  cbn [sort fold_right]. fold (sort byCostDesc l). rewrite IH.
  destruct l as [|y r]; [reflexivity|].
  cbn [insertSorted]. inversion F as [|? ? G _]; subst.
  assert (L : byCostDesc x y <= 0) by (unfold byCostDesc, Spec.costGe in *; lra).
  apply Qle_bool_iff in L. now rewrite L.
Qed.

Lemma sorted_split (l1 l2 : list ServiceCostData) :
  Spec.DescByCost (l1 ++ l2) ->
  Spec.DescByCost l1
  /\ forall a b, In a l1 -> In b l2 -> cost b <= cost a.
Proof.
  unfold Spec.DescByCost. induction l1 as [|x l1 IH]; simpl; intro S.
  - split; [constructor|]. intros a b [].
  - inversion S as [|? ? S' F]; subst. destruct (IH S') as [S1 C].
    split.
    + constructor; [exact S1|].
      apply Forall_forall. intros z I.
      apply (proj1 (Forall_forall _ _) F). apply in_or_app. now left.
    + intros a b [<-|I] J.
      * apply (proj1 (Forall_forall _ _) F). apply in_or_app. now right.
      * now apply C.
Qed.

(** X5. The services that [getTopServices] returns are the [topN] most
    expensive ones: there are [min topN (length services)] of them, in
    descending order of cost, and none of them costs less than a service
    that was left out. *)
Theorem top_services_are_the_top (services : list ServiceCostData)
        (topN : option nat) :
  let top := fst (getTopServices services topN) in
  let arr := snd (getTopServices services topN) in
  List.length top = Nat.min (dflt 10%nat topN) (List.length services)
  /\ Spec.DescByCost top
  /\ Permutation services (top ++ skipn (dflt 10%nat topN) arr)
  /\ forall a b, In a top -> In b (skipn (dflt 10%nat topN) arr) ->
                 cost b <= cost a.
Proof.
  cbv zeta. unfold getTopServices. cbn [fst snd].
  set (n := dflt 10%nat topN). set (arr := sort byCostDesc services).
  pose proof (sort_desc services) as S. fold arr in S.
  rewrite <- (firstn_skipn n arr) in S.
  destruct (sorted_split _ _ S) as [S1 C].
  split; [|split; [exact S1|split; [|exact C]]].
  - rewrite length_firstn. unfold arr.
    now rewrite <- (Permutation_length (sort_perm byCostDesc services)).
  - rewrite firstn_skipn. apply sort_perm.
Qed.

Lemma top_services_are_the_top_witness :
  cost (mkService "AWS Lambda" 40 0 None)
  <= cost (mkService "Amazon Simple Storage Service" 99 0 None).
Proof.
  apply (proj2 (proj2 (proj2
           (top_services_are_the_top
              [mkService "AWS Lambda" 40 0 None;
               mkService "Amazon Simple Storage Service" 99 0 None]
              (Some 1%nat))))).
  - left. reflexivity.
  - left. reflexivity.
Defined.

Section Rendering.

Variable Intl_format : string -> string -> Q -> string.

Lemma suggestionFor_short (s : ServiceCostData) :
(List.length (suggestionFor Intl_format s) <= 1)%nat.
Proof.
unfold suggestionFor.
repeat match goal with |- context [if ?b then _ else _] => destruct b end;
  simpl; auto.
Qed.

Lemma flat_map_short {A B : Type} (f : A -> list B) (l : list A) :
(forall a, (List.length (f a) <= 1)%nat) ->
(List.length (flat_map f l) <= List.length l)%nat.
Proof.
intro H. induction l as [|a l IH]; simpl; [auto|].
rewrite length_app. specialize (H a). lia.
Qed.

(** X6. [generateCostOptimizationSuggestions] gives at most one suggestion
  for each of the five most expensive services, so at most five; it
  gives none when every service costs less than the threshold (100 when
  omitted). *)
Theorem suggestions_bounded (services : list ServiceCostData)
      (threshold : option Q) :
(List.length (fst (generateCostOptimizationSuggestions Intl_format
                     services threshold)) <= 5)%nat
/\ (List.length (fst (generateCostOptimizationSuggestions Intl_format
                        services threshold))
    <= List.length services)%nat
/\ ((forall s, In s services -> cost s < dflt 100 threshold) ->
    fst (generateCostOptimizationSuggestions Intl_format services threshold)
    = []).
Proof.
unfold generateCostOptimizationSuggestions, getTopServices. cbn [fst snd dflt].
set (top := firstn 5 (sort byCostDesc services)).
set (f := fun service : ServiceCostData =>
            if ltb (cost service) (dflt 100 threshold) then []
            else suggestionFor Intl_format service).
assert (F : forall a, (List.length (f a) <= 1)%nat).
{ intro a. unfold f. destruct (ltb _ _); [simpl; auto|apply suggestionFor_short]. }
assert (T : (List.length top <= 5)%nat /\ (List.length top <= List.length services)%nat).
{ unfold top. rewrite length_firstn.
  rewrite <- (Permutation_length (sort_perm byCostDesc services)). lia. }
pose proof (flat_map_short f top F) as L.
split; [|split].
- change (match threshold with Some v => v | None => 100 end)
    with (dflt 100 threshold). fold f. lia.
- change (match threshold with Some v => v | None => 100 end)
    with (dflt 100 threshold). fold f. lia.
- intro H.
  change (match threshold with Some v => v | None => 100 end)
    with (dflt 100 threshold). fold f.
  assert (E : forall a, In a top -> f a = []).
  { intros a I. unfold f.
    assert (J : In a services).
    { apply (Permutation_in _ (Permutation_sym (sort_perm byCostDesc services))).
      rewrite <- (firstn_skipn 5 (sort byCostDesc services)).
      apply in_or_app. left. exact I. }
    apply H, ltb_true in J. now rewrite J. }
  clear -E. induction top as [|a l IH]; [reflexivity|].
  simpl. rewrite (E a (or_introl eq_refl)). simpl.
  apply IH. intros b I. apply E. now right.
Qed.

End Rendering.

Lemma suggestions_bounded_witness :
  fst (generateCostOptimizationSuggestions (fun _ _ _ => EmptyString)
         [mkService "Amazon Simple Storage Service" 99 0 None;
          mkService "AWS Lambda" 40 0 None] None)
  = [].
Proof.
  apply (proj2 (proj2 (suggestions_bounded (fun _ _ _ => EmptyString)
           [mkService "Amazon Simple Storage Service" 99 0 None;
            mkService "AWS Lambda" 40 0 None] None))).
  intros s [<-|[<-|[]]]; reflexivity.
Defined.

End RankingFacts.

(* ================================================================== *)
(** * Further facts about the analysed result *)

Module AnalysisFacts.

Import Num CostCalc Types Report Fetcher NumFacts ReportFacts FetcherFacts.
Local Open Scope Q_scope.

Lemma serviceOf_name (prev : option ResultByTime) (g : Group) :
  name (serviceOf prev g) = orElse (Props.firstKey g) "Unknown".
Proof. reflexivity. Qed.

Lemma orElse_nonempty (s : option string) (d : string) :
  d <> EmptyString -> orElse s d <> EmptyString.
Proof.
  intro D. unfold orElse. destruct s as [v|]; [|exact D].
  destruct (String.eqb_spec v ""); [exact D|assumption].
Qed.

Lemma findGroup_none (prev : option ResultByTime) (serviceName : string) :
  (forall groups g, groupsOf prev = Some groups -> In g groups ->
                    Props.firstKey g <> Some serviceName) ->
  findGroup prev serviceName = None.
Proof.
  intro H. unfold findGroup. destruct (groupsOf prev) as [groups|]; [|reflexivity].
  specialize (H groups).
  induction groups as [|g gs IH]; [reflexivity|].
  cbn [find]. pose proof (H g eq_refl (or_introl eq_refl)) as N.
  unfold Props.firstKey in N. destruct (hd_error (Keys g)) as [k|].
  - destruct (String.eqb_spec k serviceName); [congruence|].
    apply IH. intros g' _ I. apply H; [reflexivity|now right].
  - apply IH. intros g' _ I. apply H; [reflexivity|now right].
Qed.

Lemma findGroup_first (prev : option ResultByTime) (serviceName : string)
      (before : list Group) (g : Group) (after : list Group) :
  groupsOf prev = Some (before ++ g :: after) ->
  Props.firstKey g = Some serviceName ->
  (forall h, In h before -> Props.firstKey h <> Some serviceName) ->
  findGroup prev serviceName = Some g.
Proof.
  intros G K B. unfold findGroup. rewrite G. clear G.
  induction before as [|h hs IH]; cbn [app find].
  - unfold Props.firstKey in K. rewrite K. now rewrite String.eqb_refl.
  - pose proof (B h (or_introl eq_refl)) as N. unfold Props.firstKey in N.
    destruct (hd_error (Keys h)) as [k|].
    + destruct (String.eqb_spec k serviceName); [congruence|].
      apply IH. intros h' I. apply B. now right.
    + apply IH. intros h' I. apply B. now right.
Qed.

Section Analysis.

Variable tza : Z.
Variable Intl_format : string -> string -> Q -> string.
Variable Number_toString : Q -> string.

Lemma shortSummary_fields (d d' : ProcessedCostData) :
period d = period d' -> totalCost d = totalCost d' -> currency d = currency d' ->
shortSummary tza Intl_format d = shortSummary tza Intl_format d'.
Proof.
intros P T C. unfold shortSummary, periodLabel. now rewrite P, T, C.
Qed.

Lemma summary_leaves_sorted (data : ProcessedCostData) :
Spec.DescByCost (services data) ->
snd (generateCostSummary tza Intl_format Number_toString data) = services data.
Proof.
intro S. unfold generateCostSummary.
rewrite (proj1 (summary_short_iff_falsy tza Intl_format Number_toString 3 data)).
destruct (falsy _); [reflexivity|now apply RankingFacts.sort_of_sorted].
Qed.

(** The result, field by field. *)
Lemma result_record (currentData previousData : CostExplorerResponse)
    (period : Period.Period) :
let total := totalCostOf (hd_error (ResultsByTime currentData)) in
let previousTotalCost := previousTotalCostOf (hd_error (ResultsByTime previousData)) in
let built :=
  sort byCostDesc
    (map (withPercentage total)
         (map (serviceOf (hd_error (ResultsByTime previousData)))
              (dflt [] (groupsOf (hd_error (ResultsByTime currentData)))))) in
let mom := if gtb previousTotalCost 0
           then calculatePercentageChange total previousTotalCost
           else if gtb total 0 then 100 else 0 in
let cur := orElse (option_map Unit (totalOf (hd_error (ResultsByTime currentData))))
                  "USD" in
let tr := mkTrends (Some mom) (determineTrend mom None) in
processAndAnalyzeCostData tza Intl_format Number_toString
  currentData previousData period
= mkData period total cur built tr
    (fst (generateCostSummary tza Intl_format Number_toString
            (mkData period total cur built tr ""))).
Proof.
cbv zeta. unfold processAndAnalyzeCostData. cbv zeta.
match goal with
| |- context [generateCostSummary _ _ _ ?d] =>
    pose proof (summary_leaves_sorted d (sort_desc _)) as L;
    destruct (generateCostSummary tza Intl_format Number_toString d)
      as [summary svcs]
end.
cbn [snd services fst] in *. now rewrite L.
Qed.

Lemma result_services_sorted (currentData previousData : CostExplorerResponse)
    (period : Period.Period) :
services (processAndAnalyzeCostData tza Intl_format Number_toString
            currentData previousData period)
= sort byCostDesc
    (map (withPercentage (totalCostOf (hd_error (ResultsByTime currentData))))
         (map (serviceOf (hd_error (ResultsByTime previousData)))
              (dflt [] (groupsOf (hd_error (ResultsByTime currentData)))))).
Proof. now rewrite result_record. Qed.

Lemma result_member (currentData previousData : CostExplorerResponse)
    (period : Period.Period) (s : ServiceCostData) :
In s (services (processAndAnalyzeCostData tza Intl_format Number_toString
                  currentData previousData period))
<-> exists g,
    In g (dflt [] (groupsOf (hd_error (ResultsByTime currentData))))
    /\ s = withPercentage (totalCostOf (hd_error (ResultsByTime currentData)))
             (serviceOf (hd_error (ResultsByTime previousData)) g).
Proof.
pose proof (result_services tza Intl_format Number_toString
                            currentData previousData period) as P.
split.
- intro I. apply (Permutation_in _ (Permutation_sym P)) in I.
  rewrite map_map in I. apply in_map_iff in I.
  destruct I as (g & E & I). exists g. split; [exact I|now symmetry].
- intros (g & I & ->). apply (Permutation_in _ P).
  rewrite map_map. apply in_map_iff. exists g. split; [reflexivity|exact I].
Qed.

(** X7. The services of the result are in descending order of cost, there
  is exactly one for each group of the current report, and their costs
  add up to the sum of the amounts of all the groups: no group is
  dropped or merged, not even one without a key. *)
Theorem result_keeps_every_group (currentData previousData : CostExplorerResponse)
      (period : Period.Period) :
let r := processAndAnalyzeCostData tza Intl_format Number_toString
           currentData previousData period in
let groups := dflt [] (groupsOf (hd_error (ResultsByTime currentData))) in
Spec.DescByCost (services r)
/\ List.length (services r) = List.length groups
/\ sumCosts (services r) == sumGroups groups.
Proof.
cbv zeta.
pose proof (result_services tza Intl_format Number_toString
                            currentData previousData period) as P.
split; [|split].
- rewrite result_services_sorted. apply sort_desc.
- rewrite <- (Permutation_length P). now rewrite !length_map.
- rewrite <- (sumCosts_perm _ _ P). apply sumCosts_built.
Qed.

(** X8. Every service of the result carries the first key of its group as
  its name, or 'Unknown' when the group has no key or an empty one: a
  name is never empty, and the currency is never empty either ('USD'
  when the report declares none). *)
Theorem result_names (currentData previousData : CostExplorerResponse)
      (period : Period.Period) :
let r := processAndAnalyzeCostData tza Intl_format Number_toString
           currentData previousData period in
(forall s, In s (services r) ->
           name s <> EmptyString
           /\ exists g,
               In g (dflt [] (groupsOf (hd_error (ResultsByTime currentData))))
               /\ cost s = amountOf (Metrics g)
               /\ (Props.firstKey g = None \/ Props.firstKey g = Some EmptyString ->
                   name s = "Unknown"%string)
               /\ (forall k, Props.firstKey g = Some k -> k <> EmptyString ->
                             name s = k))
/\ currency r <> EmptyString.
Proof.
cbv zeta. split.
- intros s I. apply result_member in I. destruct I as (g & I & ->).
  cbn [withPercentage name cost serviceOf].
  split; [apply orElse_nonempty; discriminate|].
  exists g. split; [exact I|]. split; [reflexivity|].
  unfold Props.firstKey, orElse. split.
  + intros [->| ->]; reflexivity.
  + intros k -> N. destruct (String.eqb_spec k ""); [contradiction|reflexivity].
- rewrite result_record. cbn [currency].
  apply orElse_nonempty. discriminate.
Qed.

(** X9. Every service of the result has a change from the previous period.
  When no group of the previous report has the service's name as its
  first key the change is 100 for a positive cost and 0 otherwise; when
  the first such group has a positive amount the change is
  [calculatePercentageChange] of the two amounts. *)
Theorem result_service_change (currentData previousData : CostExplorerResponse)
      (period : Period.Period) (s : ServiceCostData) :
let r := processAndAnalyzeCostData tza Intl_format Number_toString
           currentData previousData period in
let prev := hd_error (ResultsByTime previousData) in
In s (services r) ->
exists change,
  previousPeriodChange s = Some change
  /\ ((forall groups g, groupsOf prev = Some groups -> In g groups ->
                        Props.firstKey g <> Some (name s)) ->
      change = if gtb (cost s) 0 then 100 else 0)
  /\ (forall before g after,
         groupsOf prev = Some (before ++ g :: after) ->
         Props.firstKey g = Some (name s) ->
         (forall h, In h before -> Props.firstKey h <> Some (name s)) ->
         0 < amountOf (Metrics g) ->
         change = calculatePercentageChange (cost s) (amountOf (Metrics g))).
Proof.
cbv zeta. intro I. apply result_member in I. destruct I as (g0 & I & ->).
cbn [withPercentage previousPeriodChange name cost serviceOf].
eexists. split; [reflexivity|]. split.
- intro N. rewrite (findGroup_none _ _ N). cbn [metricsOf amountOf].
  reflexivity.
- intros before g after G K B A.
  rewrite (findGroup_first _ _ before g after G K B). cbn [metricsOf].
  apply gtb_true in A. now rewrite A.
Qed.

(** X10. The result always carries a month-over-month change, and its
  trend is that of this change at the default threshold. When the total
  of the previous period is not positive the change is 100 with trend
  [increasing] for a positive current total, and 0 with trend [stable]
  otherwise; a change of 0 leaves the summary with the total and the
  period only. *)
Theorem result_month_over_month (currentData previousData : CostExplorerResponse)
      (period : Period.Period) :
let r := processAndAnalyzeCostData tza Intl_format Number_toString
           currentData previousData period in
let previousTotalCost := previousTotalCostOf (hd_error (ResultsByTime previousData)) in
exists mom,
  monthOverMonth (trends r) = Some mom
  /\ trend (trends r) = determineTrend mom None
  /\ (0 < previousTotalCost ->
      mom = calculatePercentageChange (totalCost r) previousTotalCost)
  /\ (previousTotalCost <= 0 -> 0 < totalCost r ->
      mom = 100 /\ trend (trends r) = increasing)
  /\ (previousTotalCost <= 0 -> totalCost r <= 0 ->
      mom = 0 /\ trend (trends r) = stable)
  /\ (mom == 0 -> summary r = shortSummary tza Intl_format r).
Proof.
cbv zeta. rewrite result_record. cbn [trends monthOverMonth trend totalCost summary].
eexists. split; [reflexivity|]. split; [reflexivity|].
split; [|split; [|split]].
- intro P. apply gtb_true in P. now rewrite P.
- intros P C. apply gtb_false in P. apply gtb_true in C. rewrite P, C.
  split; reflexivity.
- intros P C. apply gtb_false in P, C. rewrite P, C. split; reflexivity.
- intro Z. unfold generateCostSummary, generateCostSummaryTop.
  cbn [trends monthOverMonth falsy]. apply eqb_true in Z. rewrite Z.
  cbn [fst]. apply shortSummary_fields; reflexivity.
Qed.

(** X11. When the declared total of the current period is not positive,
  so that the total is the sum of the groups, and no group has a
  negative amount, every share lies between 0 and 100. *)
Theorem recomputed_shares_in_range (currentData previousData : CostExplorerResponse)
      (period : Period.Period) :
let r := processAndAnalyzeCostData tza Intl_format Number_toString
           currentData previousData period in
let cur := hd_error (ResultsByTime currentData) in
amountOf (totalOf cur) <= 0 ->
(forall g, In g (dflt [] (groupsOf cur)) -> 0 <= amountOf (Metrics g)) ->
forall s, In s (services r) -> 0 <= percentage s <= 100.
Proof.
cbv zeta. intros D N s I.
apply result_member in I. destruct I as (g & I & ->).
cbn [withPercentage percentage cost serviceOf].
rewrite (totalCostOf_recomputed _ D).
set (groups := dflt [] (groupsOf (hd_error (ResultsByTime currentData)))) in *.
assert (B : 0 <= amountOf (Metrics g) <= sumGroups groups).
{ clearbody groups. split; [now apply N|].
  induction groups as [|h hs IH]; [contradiction|].
  rewrite sumGroups_cons.
  assert (P : 0 <= sumGroups hs).
  { clear -N. induction hs as [|k ks IHk]; [discriminate|].
    rewrite sumGroups_cons.
    assert (0 <= amountOf (Metrics k)) by (apply N; right; now left).
    assert (0 <= sumGroups ks).
    { apply IHk. intros g [<-|J]; apply N; [now left|right; now right]. }
    lra. }
  destruct I as [<-|I].
  - lra.
  - assert (0 <= amountOf (Metrics h)) by (apply N; now left).
    assert (amountOf (Metrics g) <= sumGroups hs).
    { apply IH; [intros g' J; apply N; now right|exact I]. }
    lra. }
destruct (gtb (sumGroups groups) 0) eqn:G; [|split; discriminate].
apply gtb_true in G.
assert (R0 : 0 <= amountOf (Metrics g) / sumGroups groups)
  by (apply Qle_shift_div_l; lra).
assert (R1 : amountOf (Metrics g) / sumGroups groups <= 1)
  by (apply Qle_shift_div_r; lra).
split; lra.
Qed.

End Analysis.

Lemma result_names_witness :
  name (mkService "Unknown" 30 (30 / 30 * 100) (Some 100)) <> EmptyString.
Proof.
  apply (proj1 (result_names 0 (fun _ _ _ => EmptyString) (fun _ => EmptyString)
                  (mkResponse [mkResultByTime None
                                 (Some [mkGroup [] (Some (mkMetric 30 "USD"))])])
                  (mkResponse [])
                  (Period.mkPeriod (JsDate.mkIso 2025 5 1) (JsDate.mkIso 2025 5 31)))
               (mkService "Unknown" 30 (30 / 30 * 100) (Some 100))).
  left. reflexivity.
Defined.

Lemma result_service_change_witness :
  exists change,
    previousPeriodChange (mkService "AWS Lambda" 30 (30 / 30 * 100) (Some 100)) = Some change
    /\ change = 100.
Proof.
  destruct (result_service_change 0 (fun _ _ _ => EmptyString) (fun _ => EmptyString)
              (mkResponse [mkResultByTime None
                             (Some [mkGroup ["AWS Lambda"%string]
                                            (Some (mkMetric 30 "USD"))])])
              (mkResponse [mkResultByTime None (Some [])])
              (Period.mkPeriod (JsDate.mkIso 2025 5 1) (JsDate.mkIso 2025 5 31))
              (mkService "AWS Lambda" 30 (30 / 30 * 100) (Some 100)))
    as (change & C & N & _).
  - left. reflexivity.
  - exists change. split; [exact C|].
    apply N. intros groups g G I. injection G as <-. contradiction.
Defined.

Lemma result_month_over_month_witness :
  let r := processAndAnalyzeCostData 0 (fun _ _ _ => EmptyString)
             (fun _ => EmptyString)
             (mkResponse [mkResultByTime (Some (mkMetric 200 "USD")) (Some [])])
             (mkResponse [mkResultByTime (Some (mkMetric 0 "USD")) (Some [])])
             (Period.mkPeriod (JsDate.mkIso 2025 5 1) (JsDate.mkIso 2025 5 31)) in
  monthOverMonth (trends r) = Some 100 /\ trend (trends r) = increasing.
Proof.
  cbv zeta.
  destruct (result_month_over_month 0 (fun _ _ _ => EmptyString)
              (fun _ => EmptyString)
              (mkResponse [mkResultByTime (Some (mkMetric 200 "USD")) (Some [])])
              (mkResponse [mkResultByTime (Some (mkMetric 0 "USD")) (Some [])])
              (Period.mkPeriod (JsDate.mkIso 2025 5 1) (JsDate.mkIso 2025 5 31)))
    as (mom & M & T & _ & P & _).
  destruct P as [-> I]; [discriminate|reflexivity|].
  split; assumption.
Defined.

Lemma recomputed_shares_in_range_witness :
  0 <= percentage (mkService "AWS Lambda" 30 (30 / 40 * 100) (Some 100)) <= 100.
Proof.
  apply (recomputed_shares_in_range 0 (fun _ _ _ => EmptyString)
           (fun _ => EmptyString)
           (mkResponse [mkResultByTime None
                          (Some [mkGroup ["AWS Lambda"%string]
                                         (Some (mkMetric 30 "USD"));
                                 mkGroup [] (Some (mkMetric 10 "USD"))])])
           (mkResponse [])
           (Period.mkPeriod (JsDate.mkIso 2025 5 1) (JsDate.mkIso 2025 5 31))).
  - discriminate.
  - intros g [<-|[<-|[]]]; discriminate.
  - left. reflexivity.
Defined.

End AnalysisFacts.

(* ================================================================== *)
(** * Further facts about dates and periods *)

Module DateFacts.

Import JsDate Period CalendarFacts PeriodFacts.
Local Open Scope Z_scope.



Lemma IsoDate_eta (a : IsoDate) : mkIso (year a) (month a) (day a) = a.
Proof. now destruct a. Qed.

(** A calendar date is recovered from its time value. *)
Lemma toISODate_Date_iso (a : IsoDate) :
  Props.validDate a -> toISODate (Date_iso a) = a.
Proof.
  intros [M D]. unfold toISODate, Date_iso. rewrite Day_midnight.
  replace (month a) with (month a - 1 + 1) in D by lia.
  destruct (civil_MakeDay (year a) (month a - 1) (day a)) as (Y1 & M1 & D1);
    [lia|exact D|].
  rewrite Y1, M1, D1. replace (month a - 1 + 1) with (month a) by lia.
  apply IsoDate_eta.
Qed.

Lemma IsoDate_leb_antisym (a b : IsoDate) :
  IsoDate_leb a b = true -> IsoDate_leb b a = true -> a = b.
Proof.
  destruct a as [ya ma da], b as [yb mb db]. unfold IsoDate_leb. simpl.
  intros H K.
  repeat match goal with
         | H : context [Z.eqb ?x ?y] |- _ => destruct (Z.eqb_spec x y)
         | H : context [Z.ltb ?x ?y] |- _ => destruct (Z.ltb_spec x y)
         | H : context [Z.leb ?x ?y] |- _ => destruct (Z.leb_spec x y)
         end; simpl in *; try discriminate; try lia.
  f_equal; lia.
Qed.

Lemma civil_apart (d e : Z) :
  d < e -> IsoDate_leb (toISODate (MakeDate e 0)) (toISODate (MakeDate d 0)) = false.
Proof.
  intro L.
  destruct (IsoDate_leb (toISODate (MakeDate e 0)) (toISODate (MakeDate d 0))) eqn:E;
    [|reflexivity].
  assert (F : IsoDate_leb (toISODate (MakeDate d 0)) (toISODate (MakeDate e 0)) = true).
  { apply toISODate_mono. unfold MakeDate, msPerDay. lia. }
  pose proof (IsoDate_leb_antisym _ _ E F) as Q.
  apply (f_equal Spec.dayNumber) in Q.
  rewrite !dayNumber_toISODate, !Day_midnight in Q. lia.
Qed.

Lemma midnight_of_day (t : Z) (k : Z) :
  Day t = k -> toISODate t = toISODate (MakeDate k 0).
Proof.
  intros <-. unfold toISODate. now rewrite Day_midnight.
Qed.

Lemma Day_of_date (a : IsoDate) : Day (Date_iso a) = Spec.dayNumber a.
Proof. reflexivity. Qed.

Lemma daysInclusive_days (a b : IsoDate) :
  daysInclusive a b = Spec.dayNumber b - Spec.dayNumber a + 1.
Proof. reflexivity. Qed.

(** X12. The period that [fetchPreviousPeriodData] requests ends on the day
    before the current period starts, has one day less than the current
    period, and does not depend on the offset of the host's time zone. It
    is a period with [start <= end] when the current period has at least
    two days, and not when the current period is a single day. *)
Theorem previous_period_window (tza : Z) (startDate endDate : IsoDate) :
  let p := previousPeriod tza startDate endDate in
  Spec.dayNumber (end_ p) = Spec.dayNumber startDate - 1
  /\ daysInclusive (start p) (end_ p) = daysInclusive startDate endDate - 1
  /\ p = previousPeriod 0 startDate endDate
  /\ (Spec.dayNumber startDate < Spec.dayNumber endDate -> Spec.ordered p)
  /\ (Spec.dayNumber startDate = Spec.dayNumber endDate -> ~ Spec.ordered p).
Proof.
  cbv zeta.
  destruct (previousPeriod_days tza startDate endDate) as [E S].
  split; [exact E|]. split; [|split; [|split]].
  - rewrite !daysInclusive_days, S, E. rewrite daysInclusive_days. lia.
  - now rewrite !previousPeriod_shift.
  - intro L. rewrite previousPeriod_shift. cbv zeta. unfold Spec.ordered.
    cbn [start end_]. apply toISODate_mono. unfold msPerDay. lia.
  - intro L. rewrite previousPeriod_shift. cbv zeta. unfold Spec.ordered.
    cbn [start end_]. rewrite L, Z.sub_diag, Z.mul_0_l, Z.sub_0_r.
    rewrite (midnight_of_day (Date_iso startDate) (Spec.dayNumber startDate) eq_refl).
    rewrite (midnight_of_day (Date_iso startDate - msPerDay)
                             (Spec.dayNumber startDate - 1)).
    + rewrite civil_apart by lia. discriminate.
    + replace (Date_iso startDate - msPerDay)
        with (Date_iso startDate + (-1) * msPerDay) by lia.
      rewrite Day_shift. unfold Spec.dayNumber. lia.
Qed.

Lemma previous_period_window_witness :
  Spec.ordered (previousPeriod 0 (mkIso 2025 5 1) (mkIso 2025 5 31))
  /\ ~ Spec.ordered (previousPeriod 0 (mkIso 2025 5 10) (mkIso 2025 5 10)).
Proof.
  split.
  - apply (proj1 (proj2 (proj2 (proj2
            (previous_period_window 0 (mkIso 2025 5 1) (mkIso 2025 5 31)))))).
    reflexivity.
  - apply (proj2 (proj2 (proj2 (proj2
            (previous_period_window 0 (mkIso 2025 5 10) (mkIso 2025 5 10)))))).
    reflexivity.
Defined.







(** X15. [formatPeriod] names the month and the year of the start date on a
    host that is at or ahead of UTC (by less than a day); on a host behind
    UTC it names the month and year of the day before the start date. The
    label of the period in the summary is [formatPeriod] of the period. *)
Theorem period_label_rule (tza : Z) (startDate endDate : IsoDate) :
  (0 <= tza < msPerDay -> Props.validDate startDate ->
   DateHelpers.formatPeriod tza startDate endDate
   = (monthLong (month startDate - 1) ++ " " ++ Num.Z_toString (year startDate))%string)
  /\ (- msPerDay <= tza < 0 ->
      DateHelpers.formatPeriod tza startDate endDate
      = DateHelpers.formatPeriod 0 (minusDays startDate 1) endDate)
  /\ (forall data,
         Types.period data = mkPeriod startDate endDate ->
         Report.periodLabel tza data
         = DateHelpers.formatPeriod tza startDate endDate).
Proof.
  split; [|split].
  - intros T [M D]. unfold DateHelpers.formatPeriod, getFullYear, getMonth, LocalTime.
    assert (E : Day (Date_iso startDate + tza) = Spec.dayNumber startDate).
    { unfold Spec.dayNumber, Date_iso. rewrite Day_midnight.
      unfold Day, MakeDate, msPerDay in *. div_lia. }
    rewrite E. unfold Spec.dayNumber, Date_iso. rewrite Day_midnight.
    replace (month startDate) with (month startDate - 1 + 1) in D by lia.
    destruct (civil_MakeDay (year startDate) (month startDate - 1) (day startDate))
      as (Y1 & M1 & _); [lia|exact D|].
    now rewrite Y1, M1.
  - intro T. unfold DateHelpers.formatPeriod, getFullYear, getMonth, LocalTime, minusDays.
    assert (E : Day (Date_iso startDate + tza) = Spec.dayNumber startDate - 1).
    { unfold Spec.dayNumber, Date_iso. rewrite Day_midnight.
      unfold Day, MakeDate, msPerDay in *. div_lia. }
    assert (F : Day (Date_iso (toISODate (Date_iso startDate - 1 * msPerDay)) + 0)
                = Spec.dayNumber startDate - 1).
    { rewrite Z.add_0_r, Day_of_date, dayNumber_toISODate.
      replace (Date_iso startDate - 1 * msPerDay)
        with (Date_iso startDate + (-1) * msPerDay) by lia.
      rewrite Day_shift. unfold Spec.dayNumber. lia. }
    now rewrite E, F.
  - intros data E. unfold Report.periodLabel, DateHelpers.formatPeriod.
    now rewrite E.
Qed.

Lemma period_label_rule_witness :
  DateHelpers.formatPeriod 32400000 (mkIso 2025 5 1) (mkIso 2025 5 31)
  = "May 2025"%string
  /\ DateHelpers.formatPeriod (-18000000) (mkIso 2025 5 1) (mkIso 2025 5 31)
     = "April 2025"%string.
Proof.
  split.
  - rewrite (proj1 (period_label_rule 32400000 (mkIso 2025 5 1) (mkIso 2025 5 31))).
    + reflexivity.
    + unfold msPerDay. lia.
    + split; simpl; lia.
  - rewrite (proj1 (proj2 (period_label_rule (-18000000) (mkIso 2025 5 1)
                                             (mkIso 2025 5 31)))).
    + reflexivity.
    + unfold msPerDay. lia.
Defined.

(** X16. On two dates of the calendar [isValidPeriod] holds exactly when
    the start date is not after the end date, as their "YYYY-MM-DD"
    strings compare. *)
Theorem valid_period_is_date_order (a b : IsoDate) :
  Props.validDate a -> Props.validDate b ->
  isValidPeriod a b = IsoDate_leb a b.
Proof.
  intros Va Vb. unfold isValidPeriod.
  pose proof (toISODate_Date_iso a Va) as Ra.
  pose proof (toISODate_Date_iso b Vb) as Rb.
  destruct (Z.leb_spec (Date_iso a) (Date_iso b)) as [L|L].
  - symmetry. rewrite <- Ra, <- Rb. now apply toISODate_mono.
  - symmetry.
    destruct (IsoDate_leb a b) eqn:E; [|reflexivity].
    assert (F : IsoDate_leb b a = true).
    { rewrite <- Ra, <- Rb. apply toISODate_mono. lia. }
    pose proof (IsoDate_leb_antisym _ _ E F) as Q. subst b. lia.
Qed.

Lemma valid_period_is_date_order_witness :
  isValidPeriod (mkIso 2024 2 29) (mkIso 2024 3 1) = true.
Proof.
  rewrite (valid_period_is_date_order (mkIso 2024 2 29) (mkIso 2024 3 1)).
  - reflexivity.
  - split; simpl; lia.
  - split; simpl; lia.
Defined.

End DateFacts.

(* ================================================================== *)
(** * What the two regular expressions accept *)

Module MatchFacts.

Import Str StrFacts.
Local Open Scope string_scope.

Lemma yearSearch_sound (s : string) (prevWord : bool) :
  yearSearch prevWord s = true ->
  exists pre d post,
    s = pre ++ d ++ post /\ String.length d = 4%nat /\ Props.allDigits d = true
    /\ Props.lastWord prevWord pre = false /\ wordEnds post = true.
Proof.
  revert prevWord. induction s as [|c r IH]; intros prevWord H; [discriminate|].
  cbn [yearSearch] in H. apply orb_true_iff in H. destruct H as [H|H].
  - apply andb_true_iff in H. destruct H as [P F].
    apply negb_true_iff in P. subst prevWord.
    destruct r as [|b [|c' [|d rest]]]; try discriminate.
    cbn [fourDigitsAt] in F.
    destruct (isDigit c) eqn:D1, (isDigit b) eqn:D2, (isDigit c') eqn:D3,
             (isDigit d) eqn:D4; try discriminate.
    cbn [andb] in F.
    exists "", (String c (String b (String c' (String d ""))))%string, rest.
    repeat split; auto. cbn [Props.allDigits].
    now rewrite D1, D2, D3, D4.
  - destruct (IH _ H) as (pre & d & post & E & L & A & W & P).
    exists (String c pre), d, post. subst r. repeat split; auto.
Qed.

Lemma yearSearch_complete (pre d post : string) (prevWord : bool) :
  String.length d = 4%nat -> Props.allDigits d = true ->
  Props.lastWord prevWord pre = false -> wordEnds post = true ->
  yearSearch prevWord (pre ++ d ++ post) = true.
Proof.
  intros L A. revert prevWord. induction pre as [|c pre IH]; intros prevWord W P.
  - cbn [Props.lastWord] in W. subst prevWord.
    destruct d as [|a [|b [|c [|e [|x d]]]]]; try discriminate.
    cbn [Props.allDigits] in A.
    destruct (isDigit a) eqn:D1, (isDigit b) eqn:D2, (isDigit c) eqn:D3,
             (isDigit e) eqn:D4; try discriminate.
    cbn [append yearSearch fourDigitsAt negb andb].
    now rewrite D1, D2, D3, D4, P.
  - cbn [append yearSearch]. cbn [Props.lastWord] in W.
    rewrite (IH _ W P). apply orb_true_r.
Qed.

(** X17. [/\b\d{4}\b/] accepts a query exactly when four digits stand in it
    as a word of their own: with no letter, digit or underscore right
    before or right after them. *)
Theorem year_token_iff (query : string) :
  hasYearToken query = true
  <-> exists d, String.length d = 4%nat /\ Props.allDigits d = true
                /\ Props.standsAlone d query.
Proof.
  unfold hasYearToken, Props.standsAlone. split.
  - intro H. destruct (yearSearch_sound _ _ H) as (pre & d & post & E & L & A & W & P).
    exists d. repeat split; auto. exists pre, post. auto.
  - intros (d & L & A & pre & post & -> & W & P).
    now apply yearSearch_complete.
Qed.

Lemma matchNoCase_split (name s m r : string) :
  matchNoCase name s = Some (m, r) -> s = m ++ r.
Proof.
  revert s m r. induction name as [|a name IH]; intros s m r H.
  - simpl in H. injection H as <- <-. reflexivity.
  - destruct s as [|b s]; simpl in H; [discriminate|].
    destruct (Ascii.eqb (lowerChar a) (lowerChar b)); [|discriminate].
    destruct (matchNoCase name s) as [[m' r']|] eqn:M; [|discriminate].
    injection H as <- <-. simpl. now rewrite (IH _ _ _ M).
Qed.

Lemma matchNoCase_complete (name m r : string) :
  toLowerCase m = toLowerCase name -> matchNoCase name (m ++ r) = Some (m, r).
Proof.
  revert m. induction name as [|a name IH]; intros m H.
  - destruct m; [reflexivity|discriminate].
  - destruct m as [|b m]; [discriminate|].
    simpl in H. injection H as C T.
    cbn [append matchNoCase]. rewrite <- C, Ascii.eqb_refl.
    now rewrite (IH m T).
Qed.

Lemma altAt_sound (names : list string) (s m : string) :
  altAt names s = Some m ->
  exists r, s = m ++ r /\ wordEnds r = true
            /\ exists n, In n names /\ toLowerCase m = toLowerCase n.
Proof.
  induction names as [|n ns IH]; simpl; intro H; [discriminate|].
  destruct (matchNoCase n s) as [[m' r]|] eqn:M.
  - destruct (wordEnds r) eqn:W.
    + injection H as <-. exists r. split; [eapply matchNoCase_split; eauto|].
      split; [exact W|]. exists n. split; [now left|].
      eapply matchNoCase_lower; eauto.
    + destruct (IH H) as (r' & E & W' & n' & I & L).
      exists r'. repeat split; auto. exists n'. split; [now right|exact L].
  - destruct (IH H) as (r' & E & W' & n' & I & L).
    exists r'. repeat split; auto. exists n'. split; [now right|exact L].
Qed.

Lemma altAt_complete (names : list string) (n m r : string) :
  In n names -> toLowerCase m = toLowerCase n -> wordEnds r = true ->
  exists m', altAt names (m ++ r) = Some m'.
Proof.
  intros I L W. induction names as [|k ks IH]; [contradiction|].
  cbn [altAt].
  destruct (matchNoCase k (m ++ r)) as [[m' r']|] eqn:M.
  - destruct (wordEnds r') eqn:W'; [eauto|].
    destruct I as [->|I]; [|now apply IH].
    rewrite (matchNoCase_complete n m r L) in M. injection M as <- <-. congruence.
  - destruct I as [->|I]; [|now apply IH].
    rewrite (matchNoCase_complete n m r L) in M. discriminate.
Qed.

Lemma monthSearch_sound (s : string) (prevWord : bool) (m : string) :
  monthSearch prevWord s = Some m ->
  exists pre post,
    s = pre ++ m ++ post
    /\ Props.lastWord prevWord pre = false /\ wordEnds post = true.
Proof.
  revert prevWord. induction s as [|c s IH]; intros prevWord H; [discriminate|].
  cbn [monthSearch] in H.
  destruct (if prevWord then None else altAt monthNames (String c s)) as [m'|] eqn:A.
  - injection H as <-. destruct prevWord; [discriminate|].
    destruct (altAt_sound _ _ _ A) as (r & E & W & _).
    exists "", r. auto.
  - destruct (IH _ H) as (pre & post & E & W & P).
    exists (String c pre), post. subst s. auto.
Qed.

Lemma month_name_nonempty (m : string) : Props.isMonthName m -> m <> "".
Proof.
  intros (n & I & L) ->. simpl in I, L.
  repeat (destruct I as [<-|I]; [discriminate|]). contradiction.
Qed.

Lemma monthSearch_complete (pre m post : string) (prevWord : bool) :
  Props.isMonthName m ->
  Props.lastWord prevWord pre = false -> wordEnds post = true ->
  exists m', monthSearch prevWord (pre ++ m ++ post) = Some m'.
Proof.
  intros N. revert prevWord. induction pre as [|c pre IH]; intros prevWord W P.
  - cbn [Props.lastWord] in W. subst prevWord. cbn [append].
    pose proof (month_name_nonempty m N) as E.
    destruct N as (n & I & L).
    destruct (altAt_complete monthNames n m post I L P) as (m' & A).
    destruct m as [|b m]; [contradiction|].
    cbn [append monthSearch] in *. rewrite A. eauto.
  - cbn [append monthSearch]. cbn [Props.lastWord] in W.
    destruct (if prevWord then None else altAt monthNames _) as [m'|]; [eauto|].
    now apply IH.
Qed.

Lemma year_token_iff_witness :
  exists d, String.length d = 4%nat /\ Props.allDigits d = true
            /\ Props.standsAlone d "costs in May, fiscal year 2025".
Proof.
  apply (proj1 (year_token_iff "costs in May, fiscal year 2025")). reflexivity.
Defined.

(** X18. The month-name expression finds a match in a query exactly when
    the English name of a month, in any case, stands in it as a word of
    its own; the text it captures is such a name standing alone. *)
Theorem month_word_iff (query : string) :
  ((exists name, monthOnlyMatch query = Some name)
   <-> exists name, Props.isMonthName name /\ Props.standsAlone name query)
  /\ forall name, monthOnlyMatch query = Some name ->
                  Props.isMonthName name /\ Props.standsAlone name query.
Proof.
  assert (S : forall name, monthOnlyMatch query = Some name ->
                           Props.isMonthName name /\ Props.standsAlone name query).
  { intros name H. split.
    - now apply monthSearch_lower in H.
    - destruct (monthSearch_sound _ _ _ H) as (pre & post & E & W & P).
      exists pre, post. auto. }
  split; [|exact S]. split.
  - intros (name & H). exists name. now apply S.
  - intros (name & N & pre & post & -> & W & P).
    now apply monthSearch_complete.
Qed.

Lemma month_word_iff_witness :
  Props.isMonthName "MAY" /\ Props.standsAlone "MAY" "what about MAY?".
Proof.
  apply (proj2 (month_word_iff "what about MAY?") "MAY"). reflexivity.
Defined.

End MatchFacts.

(* ================================================================== *)
(** * The explanation of an error and the result of the tool *)

Module ToolFacts.

Import Errors.
Local Open Scope string_scope.

Ltac by_text :=
  repeat match goal with
         | |- context [Str.includes ?m ?p] =>
             destruct (Str.includes m p) eqn:?; cbn [orb];
             try (repeat split;
                  first [ reflexivity
                        | intro; discriminate
                        | intro; congruence
                        | intros _; cbn; tauto
                        | let H := fresh in intro H; exfalso; apply H; reflexivity
                        | cbn; discriminate ])
         end.

(** The explanation that [handleAWSError] gives for a message. *)
Lemma explained (msg : string) (error : Caught) :
  messageOf error = Some msg ->
  let r := handleAWSError error in
  (errorType r = "UNKNOWN" -> Errors.error r = "Unexpected error occurred: " ++ msg)
  /\ (errorType r <> "UNKNOWN" -> In (Errors.error r) Props.explanations)
  /\ (Str.includes msg "RequestLimitExceeded" = true ->
      errorType r <> "QUOTA_EXCEEDED")
  /\ Errors.error r <> "Unknown error occurred"
  /\ Errors.error r <> "".
Proof.
  intro M.
  destruct error as [|n m|s]; [discriminate| |]; injection M as M;
    cbv beta iota zeta delta [handleAWSError]; rewrite M;
    unfold anyIncluded, Props.explanations; cbn [existsb];
    by_text.
Qed.

(** X19. For a caught error with a message, the explanation of
    [handleAWSError] is one of seven fixed texts when the error is
    classified, and the message after "Unexpected error occurred: " when it
    is UNKNOWN; it is never empty and never the text kept for a missing
    error.  A message that includes RequestLimitExceeded is never
    QUOTA_EXCEEDED, although it includes LimitExceeded: the throttling
    signatures are read first. *)
Theorem error_text_rule (msg : string) (error : Caught) :
  messageOf error = Some msg ->
  (errorType (handleAWSError error) = "UNKNOWN" ->
   Errors.error (handleAWSError error) = "Unexpected error occurred: " ++ msg)
  /\ (errorType (handleAWSError error) <> "UNKNOWN" ->
      In (Errors.error (handleAWSError error)) Props.explanations)
  /\ (Str.includes msg "RequestLimitExceeded" = true ->
      errorType (handleAWSError error) <> "QUOTA_EXCEEDED")
  /\ Errors.error (handleAWSError error) <> "Unknown error occurred"
  /\ Errors.error (handleAWSError error) <> "".
Proof. intro M. exact (explained msg error M). Qed.

Lemma error_text_rule_witness :
  errorType (handleAWSError (ErrorObject "ThrottlingException" "RequestLimitExceeded"))
  <> "QUOTA_EXCEEDED".
Proof.
  apply (error_text_rule "RequestLimitExceeded"
           (ErrorObject "ThrottlingException" "RequestLimitExceeded")).
  - reflexivity.
  - reflexivity.
Defined.

(** The [catch] block never yields the text kept for a missing error. *)
Lemma onError_shape (e : Tool.Thrown) :
  Tool.success (Tool.onError e) = false
  /\ Tool.data (Tool.onError e) = None
  /\ exists t, Tool.error (Tool.onError e) = Some t
               /\ t <> "Unknown error occurred" /\ t <> "".
Proof.
  unfold Tool.onError.
  destruct (Tool.asError e) as [name message].
  destruct (String.eqb name "ValidationException").
  - repeat split. eexists. split; [reflexivity|]. split; discriminate.
  - repeat split. eexists. split; [reflexivity|].
    apply (explained (errorMessageOf name message) (ErrorObject name message)).
    reflexivity.
Qed.

(** X20. The result of [execute] is of one of two shapes, whatever the two
    requests return or throw: a success with the data for the period
    resolved from the query and no error text, or a failure with no data
    and an error text that is neither empty nor the text kept for a
    missing error. *)
Theorem execute_result_shape (tza : Z)
        (chrono_parse : string -> Z -> list Chrono.ParsedResult) (now : Z)
        (Intl_format : string -> string -> Q -> string)
        (Number_toString : Q -> string)
        (send : Period.Period -> Tool.Thrown + Types.CostExplorerResponse)
        (userQuery : string) :
  let r := Tool.execute tza chrono_parse now Intl_format Number_toString send
                        userQuery in
  (Tool.success r = true /\ Tool.error r = None
   /\ exists d, Tool.data r = Some d
                /\ Types.period d
                   = Period.extractPeriodFromQuery tza chrono_parse now userQuery)
  \/ (Tool.success r = false /\ Tool.data r = None
      /\ exists t, Tool.error r = Some t
                   /\ t <> "Unknown error occurred" /\ t <> "").
Proof.
  cbv zeta. unfold Tool.execute. cbv zeta.
  destruct (send _) as [e|cur]; [right; apply onError_shape|].
  destruct (send _) as [e|prev]; [right; apply onError_shape|].
  left. cbn [Tool.success Tool.error Tool.data]. repeat split.
  eexists. split; [reflexivity|].
  rewrite AnalysisFacts.result_record. reflexivity.
Qed.

End ToolFacts.

(* ================================================================== *)
(** * The environment *)

Module EnvFacts.

Import Env.
Local Open Scope string_scope.

Lemma dash_not_lower : Str.isLower "-"%char = false.
Proof. reflexivity. Qed.

Lemma lettersDashDigit_iff (s : string) (seen : bool) :
  lettersDashDigit seen s = true <->
  exists mid d, s = mid ++ String "-"%char (String d EmptyString)
                /\ Props.allLower mid = true /\ Str.isDigit d = true
                /\ (seen = true \/ mid <> "").
Proof.
  revert seen. induction s as [|c r IH]; intro seen; cbn [lettersDashDigit].
  - split; [discriminate|]. intros (mid & d & E & _). destruct mid; discriminate.
  - destruct (Str.isLower c) eqn:L.
    + rewrite IH. split.
      * intros (mid & d & E & A & D & _). exists (String c mid), d.
        subst r. cbn [append Props.allLower]. rewrite L, A.
        repeat split; auto. right. discriminate.
      * intros (mid & d & E & A & D & _). destruct mid as [|c' mid].
        -- cbn in E. injection E as E1 E2. subst c. discriminate.
        -- cbn in E. injection E as E1 E2. subst c'.
           cbn [Props.allLower] in A. rewrite L in A. cbn in A.
           exists mid, d. repeat split; auto.
    + split.
      * intro H. destruct seen; [|discriminate]. cbn [andb] in H.
        destruct (Ascii.eqb c "-") eqn:E; [|discriminate].
        apply Ascii.eqb_eq in E. subst c.
        destruct r as [|d [|x y]]; try discriminate.
        exists "", d. repeat split; auto.
      * intros (mid & d & E & A & D & S). destruct mid as [|c' mid].
        -- cbn in E. injection E as E1 E2. subst c r.
           destruct S as [S|S]; [|congruence]. subst seen. cbn. exact D.
        -- cbn in E. injection E as E1 E2. subst c'.
           cbn [Props.allLower] in A. rewrite L in A. discriminate.
Qed.

(** X21. The test of the region is the expression
    [^[a-z]{2}-[a-z]+-[0-9]$]: two lower-case letters, a dash, one or more
    lower-case letters, a dash and one digit, and nothing else.  So
    [us-east-1] passes, and a region of four parts such as [us-gov-west-1]
    does not. *)
Theorem region_format_iff (region : string) :
  (regionOk region = true <->
   exists a b mid d,
     region = String a (String b (String "-"%char
                (mid ++ String "-"%char (String d EmptyString))))
     /\ Str.isLower a = true /\ Str.isLower b = true
     /\ mid <> "" /\ Props.allLower mid = true /\ Str.isDigit d = true)
  /\ regionOk "us-east-1" = true
  /\ regionOk "us-gov-west-1" = false.
Proof.
  split; [|split; reflexivity].
  unfold regionOk. split.
  - destruct region as [|a [|b [|c r]]]; try discriminate.
    destruct (Str.isLower a) eqn:La, (Str.isLower b) eqn:Lb,
             (Ascii.eqb c "-") eqn:Ec; try discriminate.
    cbn [andb]. intro H.
    apply lettersDashDigit_iff in H. destruct H as (mid & d & E & A & D & S).
    apply Ascii.eqb_eq in Ec. subst c r.
    exists a, b, mid, d. repeat split; auto.
    destruct S as [S|S]; [discriminate|exact S].
  - intros (a & b & mid & d & E & A & B & N & M & D). subst region.
    rewrite A, B. cbn [andb]. rewrite Ascii.eqb_refl. cbn [andb].
    apply lettersDashDigit_iff. exists mid, d. repeat split; auto.
Qed.

Section Validate.

Variable zod_required : string.
Variable zod_invalid_enum : string -> string.





End Validate.


End EnvFacts.
